(** * TimerManager: a registry of named countdown timers and stopwatches

    Shallow embedding of [src/index.ts].

    - JavaScript numbers hold integer milliseconds here and are modelled
      as [Z]; [Date.now()] is the argument [now] of every operation that
      reads the clock.
    - [Timer] objects live in a store ([heap]); the module-level
      [timers] map, the closures returned by [subscribe] and the
      callbacks armed with [setInterval] all hold references into that
      store, so that aliasing is kept.
    - A [Listener] is an opaque callback reference; calling it is
      recorded in the output trace [out] together with the calls to
      [setInterval] and [clearInterval].  Listeners do not call back
      into the manager.  In the operations as first given they return
      normally; module [Throwing] gives [start] and the armed callback
      again for listeners that may throw, and the two agree when none
      does. *)

From stdpp Require Import gmap strings list fin_maps.
From Stdlib Require Import ZArith Lia.

Local Open Scope Z_scope.

(** ** Data model *)

(** Callback references, object references and interval handles are
    compared by identity only; each is a natural number. *)
Abbreviation Listener := nat (only parsing).
Abbreviation loc := nat (only parsing).
Abbreviation handle := nat (only parsing).

Inductive TimerType := TIMER | STOPWATCH.

Record Timer := mkTimer {
  startTs : Z;
  elapsedTime : Z;
  intervalId : option handle;
  listeners : list Listener;
  type : TimerType;
  initialDuration : option Z;
}.

Definition set_startTs (v : Z) (t : Timer) : Timer :=
  mkTimer v (elapsedTime t) (intervalId t) (listeners t) (type t) (initialDuration t).
Definition set_elapsedTime (v : Z) (t : Timer) : Timer :=
  mkTimer (startTs t) v (intervalId t) (listeners t) (type t) (initialDuration t).
Definition set_intervalId (v : option handle) (t : Timer) : Timer :=
  mkTimer (startTs t) (elapsedTime t) v (listeners t) (type t) (initialDuration t).
Definition set_listeners (v : list Listener) (t : Timer) : Timer :=
  mkTimer (startTs t) (elapsedTime t) (intervalId t) v (type t) (initialDuration t).

(** [Set<Listener>]: insertion ordered, one occurrence per reference. *)
Definition Set_add (fn : Listener) (ls : list Listener) : list Listener :=
  if decide (fn ∈ ls) then ls else ls ++ [fn].
Definition Set_delete (fn : Listener) (ls : list Listener) : list Listener :=
  filter (λ g, g ≠ fn) ls.

(** Calls that leave the module. *)
Inductive Effect :=
| Call (fn : Listener) (value : Z)
| SetInterval (h : handle) (delay : Z)
| ClearInterval (h : handle).

Record State := mkState {
  heap : gmap loc Timer;
  nextLoc : loc;
  timers : gmap string loc;
  intervals : gmap handle (string * loc);
  nextHandle : handle;
  out : list Effect;
}.

Definition init : State := mkState ∅ 0%nat ∅ ∅ 0%nat [].

Inductive Error := mkError (message : string).

Definition dq : string := String (Ascii.ascii_of_nat 34) EmptyString.

(** [new Error(`Timer "${id}" not found`)] *)
Definition NotFound (id : string) : Error :=
  mkError ("Timer " +:+ dq +:+ id +:+ dq +:+ " not found").

(** ** State and exception monad *)

Inductive Result (A : Type) :=
| Ok (a : A)
| Throw (e : Error).
Arguments Ok {A} a.
Arguments Throw {A} e.

Definition M (A : Type) : Type := State → State * Result A.

Definition ret {A} (a : A) : M A := λ s, (s, Ok a).
Definition bind {A B} (m : M A) (k : A → M B) : M B :=
  λ s, match m s with
       | (s', Ok a) => k a s'
       | (s', Throw e) => (s', Throw e)
       end.
Definition throw {A} (e : Error) : M A := λ s, (s, Throw e).

Notation "x <- m ;; k" := (bind m (λ x, k))
  (at level 100, m at next level, right associativity).
Notation "m ;;; k" := (bind m (λ _, k))
  (at level 100, right associativity).

(** Primitive actions on the store, the map and the scheduler. *)

Definition timers_has (id : string) : M bool :=
  λ s, (s, Ok (bool_decide (is_Some (timers s !! id)))).

(** [timers.get(id)]: the reference and the object it points to.  The map
    only ever holds references to allocated objects. *)
Definition timers_get (id : string) : M (option (loc * Timer)) :=
  λ s, (s, Ok (match timers s !! id with
               | Some l => match heap s !! l with
                           | Some t => Some (l, t)
                           | None => None
                           end
               | None => None
               end)).

(** [timers.set(id, { ... })]: a new object is allocated for the literal. *)
Definition timers_set (id : string) (t : Timer) : M unit :=
  λ s, (mkState (<[nextLoc s := t]> (heap s)) (S (nextLoc s))
                (<[id := nextLoc s]> (timers s))
                (intervals s) (nextHandle s) (out s), Ok tt).

Definition timers_delete (id : string) : M unit :=
  λ s, (mkState (heap s) (nextLoc s) (delete id (timers s))
                (intervals s) (nextHandle s) (out s), Ok tt).

Definition deref (l : loc) : M (option Timer) :=
  λ s, (s, Ok (heap s !! l)).

Definition write (l : loc) (t : Timer) : M unit :=
  λ s, (mkState (<[l := t]> (heap s)) (nextLoc s) (timers s)
                (intervals s) (nextHandle s) (out s), Ok tt).

Definition emit (e : Effect) : M unit :=
  λ s, (mkState (heap s) (nextLoc s) (timers s)
                (intervals s) (nextHandle s) (out s ++ [e]), Ok tt).

Definition call (fn : Listener) (value : Z) : M unit := emit (Call fn value).

Fixpoint forEach (ls : list Listener) (f : Listener → M unit) : M unit :=
  match ls with
  | [] => ret tt
  | fn :: ls' => f fn ;;; forEach ls' f
  end.

(** [setInterval(cb, delay)]: [cb] is the closure of [start], which
    captures [id] and [timer]. *)
Definition setInterval (id : string) (timer : loc) (delay : Z) : M handle :=
  λ s, (mkState (heap s) (nextLoc s) (timers s)
                (<[nextHandle s := (id, timer)]> (intervals s))
                (S (nextHandle s))
                (out s ++ [SetInterval (nextHandle s) delay]),
        Ok (nextHandle s)).

Definition clearInterval (h : handle) : M unit :=
  λ s, (mkState (heap s) (nextLoc s) (timers s)
                (delete h (intervals s)) (nextHandle s)
                (out s ++ [ClearInterval h]), Ok tt).

(** ** The operations of [TimerManager] *)

Definition createStopWatch (id : string) (currentElapsedMs : option Z) : M unit :=
  present <- timers_has id ;;
  if present then ret tt
  else timers_set id (mkTimer 0 (default 0 currentElapsedMs) None [] STOPWATCH None).

Definition createTimer (id : string) (durationMs : Z) : M unit :=
  present <- timers_has id ;;
  if present then ret tt
  else timers_set id (mkTimer 0 0 None [] TIMER (Some durationMs)).

Definition _computeValue (now : Z) (timer : Timer) : Z :=
  let sinceStart :=
    match intervalId timer with
    | Some _ => now - startTs timer
    | None => 0
    end in
  let total := elapsedTime timer + sinceStart in
  match type timer with
  | STOPWATCH => total
  | TIMER =>
      let remaining := default 0 (initialDuration timer) - total in
      if remaining >? 0 then remaining else 0
  end.

Definition stop (id : string) (now : Z) : M unit :=
  timer <- timers_get id ;;
  match timer with
  | Some (l, t) =>
      match intervalId t with
      | Some h =>
          let delta := now - startTs t in
          let t1 := set_elapsedTime (elapsedTime t + delta) t in
          write l t1 ;;;
          clearInterval h ;;;
          write l (set_intervalId None t1)
      | None => ret tt
      end
  | None => ret tt
  end.

Definition clear (id : string) (now : Z) : M unit :=
  stop id now ;;;
  timers_delete id.

(** The callback armed by [start]; [now] is read by [_computeValue] and
    [now'] by the [stop] inside [clear]. *)
Definition onInterval (id : string) (timer : loc) (now now' : Z) : M unit :=
  o <- deref timer ;;
  match o with
  | Some t =>
      let value := _computeValue now t in
      match type t with
      | TIMER =>
          if value <=? 0 then
            forEach (listeners t) (λ fn, call fn 0) ;;;
            clear id now'
          else forEach (listeners t) (λ fn, call fn value)
      | STOPWATCH => forEach (listeners t) (λ fn, call fn value)
      end
  | None => ret tt
  end.

Definition start (id : string) (now : Z) : M unit :=
  timer <- timers_get id ;;
  match timer with
  | None => throw (NotFound id)
  | Some (l, t) =>
      match intervalId t with
      | Some _ => ret tt
      | None =>
          let t1 := set_startTs now t in
          write l t1 ;;;
          let initialValue := _computeValue now t1 in
          forEach (listeners t1) (λ fn, call fn initialValue) ;;;
          h <- setInterval id l 1000 ;;
          write l (set_intervalId (Some h) t1)
      end
  end.

(** The closure returned by [subscribe]: it holds the [timer] reference
    and [fn]. *)
Record Unsubscribe := mkUnsubscribe {
  u_timer : loc;
  u_fn : Listener;
}.

Definition subscribe (id : string) (fn : Listener) : M Unsubscribe :=
  timer <- timers_get id ;;
  match timer with
  | None => throw (NotFound id)
  | Some (l, t) =>
      write l (set_listeners (Set_add fn (listeners t)) t) ;;;
      ret (mkUnsubscribe l fn)
  end.

Definition unsubscribe (u : Unsubscribe) : M unit :=
  o <- deref (u_timer u) ;;
  match o with
  | Some t => write (u_timer u) (set_listeners (Set_delete (u_fn u) (listeners t)) t)
  | None => ret tt
  end.

Definition getValue (id : string) (now : Z) : M Z :=
  timer <- timers_get id ;;
  match timer with
  | None => throw (NotFound id)
  | Some (_, t) => ret (_computeValue now t)
  end.

(** The scheduler fires the callback armed under [h], if still armed. *)
Definition tick (h : handle) (now now' : Z) : M unit :=
  λ s, match intervals s !! h with
       | Some (id, l) => onInterval id l now now' s
       | None => (s, Ok tt)
       end.

(** ** Histories

    What a client and the scheduler can do to the manager, one call at a
    time.  [OUnsubscribe] invokes a closure returned by [subscribe]; on a
    pair that no [subscribe] returned it finds no such callback in the
    set, or no object, and changes nothing.  A caller that catches an
    exception carries on from the state the throw left behind. *)

Inductive Value :=
| VUndefined
| VNumber (z : Z)
| VUnsubscribe (u : Unsubscribe).

Inductive Op :=
| OCreateStopWatch (id : string) (currentElapsedMs : option Z)
| OCreateTimer (id : string) (durationMs : Z)
| OStart (id : string) (now : Z)
| OStop (id : string) (now : Z)
| OClear (id : string) (now : Z)
| OSubscribe (id : string) (fn : Listener)
| OUnsubscribe (u : Unsubscribe)
| OGetValue (id : string) (now : Z)
| OTick (h : handle) (now now' : Z).

Definition exec (op : Op) : M Value :=
  match op with
  | OCreateStopWatch id e => createStopWatch id e ;;; ret VUndefined
  | OCreateTimer id d => createTimer id d ;;; ret VUndefined
  | OStart id now => start id now ;;; ret VUndefined
  | OStop id now => stop id now ;;; ret VUndefined
  | OClear id now => clear id now ;;; ret VUndefined
  | OSubscribe id fn => u <- subscribe id fn ;; ret (VUnsubscribe u)
  | OUnsubscribe u => unsubscribe u ;;; ret VUndefined
  | OGetValue id now => v <- getValue id now ;; ret (VNumber v)
  | OTick h now now' => tick h now now' ;;; ret VUndefined
  end.

Definition step (s : State) (op : Op) : State := (exec op s).1.

Definition run (ops : list Op) (s : State) : State := foldl step s ops.

(** ** Well-formed states

    What every state reached from [init] satisfies: the map holds
    distinct references to allocated objects, an armed callback belongs
    to the object registered under its id and that object records its
    handle, a running object has its callback armed, and a listener set
    has no duplicates. *)

Record wf (s : State) : Prop := mkWf {
  wf_timers : ∀ id l, timers s !! id = Some l → is_Some (heap s !! l);
  wf_heap : ∀ l, is_Some (heap s !! l) → (l < nextLoc s)%nat;
  wf_inj : ∀ id1 id2 l,
    timers s !! id1 = Some l → timers s !! id2 = Some l → id1 = id2;
  wf_intervals : ∀ h id l, intervals s !! h = Some (id, l) →
    timers s !! id = Some l ∧ ∃ t, heap s !! l = Some t ∧ intervalId t = Some h;
  wf_handles : ∀ h, is_Some (intervals s !! h) → (h < nextHandle s)%nat;
  wf_running : ∀ l t h, heap s !! l = Some t → intervalId t = Some h →
    ∃ id, intervals s !! h = Some (id, l);
  wf_nodup : ∀ l t, heap s !! l = Some t → NoDup (listeners t);
}.

(** ** Bookkeeping over a history *)

(** The object that [op] sets running and the clock reading it records:
    a [start] on a registered entry that is not running. *)
Definition starts (s : State) (op : Op) : option (loc * Z) :=
  match op with
  | OStart id now =>
      match (timers_get id s).2 with
      | Ok (Some (l, t)) =>
          match intervalId t with
          | None => Some (l, now)
          | Some _ => None
          end
      | _ => None
      end
  | _ => None
  end.


(** An allocated object that the map no longer references. *)
Definition detached (l : loc) (s : State) : Prop :=
  (l < nextLoc s)%nat ∧ ∀ id, timers s !! id ≠ Some l.

(** ** Sample histories *)

Definition hist_C1 : list Op :=
  [OCreateTimer "b" 3000; OStart "b" 1700000000000; OStop "b" 1700000000400;
   OStart "b" 1700000001000].

Definition hist_C3 : list Op :=
  [OCreateStopWatch "a" None; OSubscribe "a" 1%nat; OStart "a" 1700000000000].

Definition hist_C6 : list Op :=
  [OCreateTimer "b" 3000; OStart "b" 1700000000000].

Definition hist_C5 : list Op :=
  [OCreateStopWatch "a" (Some 250); OSubscribe "a" 1%nat;
   OStart "a" 1700000000000].

Definition hist_C2 : list Op :=
  [OCreateTimer "b" 3000; OSubscribe "b" 1%nat; OSubscribe "b" 2%nat;
   OStart "b" 1700000000000; OTick 0%nat 1700000001000 1700000001000;
   OTick 0%nat 1700000002001 1700000002001].

Definition hist_C4 : list Op :=
  [OCreateStopWatch "a" None; OSubscribe "a" 1%nat; OStart "a" 1700000000000].

Definition hist_C10 : list Op :=
  [OCreateTimer "z" (-5); OSubscribe "z" 1%nat].


Definition hist_C7 : list Op :=
  [OCreateStopWatch "a" None; OSubscribe "a" 1%nat].

Definition hist_C7_later : list Op :=
  [OCreateTimer "a" 3000; OSubscribe "a" 2%nat; OStart "a" 1700000005000].

(** ** Further sample histories *)

Definition hist_paused : list Op :=
  [OCreateStopWatch "a" (Some 250); OSubscribe "a" 1%nat;
   OStart "a" 1700000000000; OStop "a" 1700000002300].

Definition hist_ticking : list Op :=
  [OCreateTimer "b" 3000; OSubscribe "b" 1%nat; OSubscribe "b" 2%nat;
   OStart "b" 1700000000000; OTick 0%nat 1700000001000 1700000001000].

Definition hist_two : list Op :=
  [OCreateStopWatch "a" None; OCreateTimer "b" 3000; OSubscribe "a" 1%nat;
   OSubscribe "b" 2%nat; OStart "a" 1700000000000; OStart "b" 1700000000500].

(** Rounds of [start] then [stop] on [id], one per pair of clock
    readings, and the time they span in all. *)
Definition cycles (id : string) (ps : list (Z * Z)) : list Op :=
  flat_map (λ p, [OStart id p.1; OStop id p.2]) ps.

Definition spans (ps : list (Z * Z)) : Z :=
  foldr (λ p acc, (p.2 - p.1) + acc) 0 ps.

Definition hist_fresh : list Op :=
  [OCreateStopWatch "a" (Some 250); OSubscribe "a" 1%nat].

(** How the object at a location relates to what was there one step
    earlier; [None] stands for a location that was not allocated yet. *)
Definition evolved (o : option Timer) (t' : Timer) : Prop :=
  match o with
  | Some t =>
      type t' = type t ∧ initialDuration t' = initialDuration t
      ∧ (elapsedTime t' = elapsedTime t
         ∨ (is_Some (intervalId t) ∧ intervalId t' = None))
  | None =>
      startTs t' = 0 ∧ intervalId t' = None ∧ listeners t' = []
      ∧ match type t' with
        | STOPWATCH => initialDuration t' = None
        | TIMER => elapsedTime t' = 0 ∧ is_Some (initialDuration t')
        end
  end.

(** The id an operation acts on: the one it names or, for a firing, the
    one the armed callback captured.  A closure returned by [subscribe]
    names no id: it acts on the object it captured. *)
Definition acts_on (s : State) (op : Op) : option string :=
  match op with
  | OCreateStopWatch id _ | OCreateTimer id _ | OStart id _ | OStop id _
  | OClear id _ | OSubscribe id _ | OGetValue id _ => Some id
  | OTick h _ _ => fst <$> intervals s !! h
  | OUnsubscribe _ => None
  end.

(** ** Listeners that throw

    [throws fn value] is [Some e] when the call [fn(value)] throws [e]
    and [None] when it returns.  Only [start] and the callback it arms
    call listeners; every other operation is the one given above.  An
    exception leaves [forEach] at once, and with it the operation. *)

Module Throwing.

Section WithListeners.

Variable throws : Listener → Z → option Error.

Definition call (fn : Listener) (value : Z) : M unit :=
  emit (Call fn value) ;;;
  match throws fn value with
  | Some e => throw e
  | None => ret tt
  end.

Definition onInterval (id : string) (timer : loc) (now now' : Z) : M unit :=
  o <- deref timer ;;
  match o with
  | Some t =>
      let value := _computeValue now t in
      match type t with
      | TIMER =>
          if value <=? 0 then
            forEach (listeners t) (λ fn, call fn 0) ;;;
            clear id now'
          else forEach (listeners t) (λ fn, call fn value)
      | STOPWATCH => forEach (listeners t) (λ fn, call fn value)
      end
  | None => ret tt
  end.

Definition start (id : string) (now : Z) : M unit :=
  timer <- timers_get id ;;
  match timer with
  | None => throw (NotFound id)
  | Some (l, t) =>
      match intervalId t with
      | Some _ => ret tt
      | None =>
          let t1 := set_startTs now t in
          write l t1 ;;;
          let initialValue := _computeValue now t1 in
          forEach (listeners t1) (λ fn, call fn initialValue) ;;;
          h <- setInterval id l 1000 ;;
          write l (set_intervalId (Some h) t1)
      end
  end.

Definition tick (h : handle) (now now' : Z) : M unit :=
  λ s, match intervals s !! h with
       | Some (id, l) => onInterval id l now now' s
       | None => (s, Ok tt)
       end.

Definition exec (op : Op) : M Value :=
  match op with
  | OCreateStopWatch id e => createStopWatch id e ;;; ret VUndefined
  | OCreateTimer id d => createTimer id d ;;; ret VUndefined
  | OStart id now => start id now ;;; ret VUndefined
  | OStop id now => stop id now ;;; ret VUndefined
  | OClear id now => clear id now ;;; ret VUndefined
  | OSubscribe id fn => u <- subscribe id fn ;; ret (VUnsubscribe u)
  | OUnsubscribe u => unsubscribe u ;;; ret VUndefined
  | OGetValue id now => v <- getValue id now ;; ret (VNumber v)
  | OTick h now now' => tick h now now' ;;; ret VUndefined
  end.

End WithListeners.

End Throwing.

(** The listeners that [forEach] reaches, in order, up to and including
    the first that throws, and what that one throws. *)
Fixpoint called (throws : Listener → Z → option Error) (value : Z)
    (ls : list Listener) : list Listener * option Error :=
  match ls with
  | [] => ([], None)
  | fn :: ls' =>
      match throws fn value with
      | Some e => ([fn], Some e)
      | None => (fn :: (called throws value ls').1, (called throws value ls').2)
      end
  end.



(** ** Tactics for the per-step case analysis *)

Local Ltac shape_same :=
  cbn; split_and!;
  [ lia
  | intros ??; rewrite ?lookup_delete_Some; intros; left; tauto
  | done
  | by intros ?? -> ].

Local Ltac shape_update Hl :=
  cbn; split_and!;
  [ lia
  | intros ??; rewrite ?lookup_delete_Some; intros; left; tauto
  | intros ?; rewrite lookup_insert_is_Some'; by right
  | intros ??; rewrite lookup_insert_Some;
    intros [[<- <-]|[? ->]]; [by rewrite Hl|done] ].

(** ** Closed forms of the operations *)

Lemma forEach_call (ls : list Listener) (v : Z) (s : State) :
  forEach ls (λ fn, call fn v) s =
  (mkState (heap s) (nextLoc s) (timers s) (intervals s) (nextHandle s)
           (out s ++ map (λ fn, Call fn v) ls), Ok tt).
Proof.
  revert s. induction ls as [|fn ls IH]; intros s.
  - destruct s; cbn. by rewrite app_nil_r.
  - cbn [forEach map]. unfold bind, call, emit. rewrite IH. cbn.
    by rewrite <- app_assoc.
Qed.

Lemma timers_get_Some (id : string) (l : loc) (t : Timer) (s : State) :
  timers s !! id = Some l → heap s !! l = Some t →
  timers_get id s = (s, Ok (Some (l, t))).
Proof. intros H1 H2. unfold timers_get. by rewrite H1, H2. Qed.

Lemma timers_get_None (id : string) (s : State) :
  timers s !! id = None → timers_get id s = (s, Ok None).
Proof. intros H1. unfold timers_get. by rewrite H1. Qed.

Lemma state_eta (s : State) :
  mkState (heap s) (nextLoc s) (timers s) (intervals s) (nextHandle s) (out s) = s.
Proof. by destruct s. Qed.

Lemma start_absent (id : string) (now : Z) (s : State) :
  timers s !! id = None → start id now s = (s, Throw (NotFound id)).
Proof. intros H. unfold start, bind. by rewrite (timers_get_None _ _ H). Qed.

Lemma start_running (id : string) (now : Z) (s : State) l t h :
  timers s !! id = Some l → heap s !! l = Some t → intervalId t = Some h →
  start id now s = (s, Ok tt).
Proof.
  intros H1 H2 H3. unfold start, bind.
  by rewrite (timers_get_Some _ _ _ _ H1 H2), H3.
Qed.

Lemma start_stopped (id : string) (now : Z) (s : State) l t :
  timers s !! id = Some l → heap s !! l = Some t → intervalId t = None →
  start id now s =
  (mkState (<[l := set_intervalId (Some (nextHandle s)) (set_startTs now t)]> (heap s))
           (nextLoc s) (timers s)
           (<[nextHandle s := (id, l)]> (intervals s))
           (S (nextHandle s))
           (out s ++ map (λ fn, Call fn (_computeValue now (set_startTs now t))) (listeners t)
                  ++ [SetInterval (nextHandle s) 1000]),
   Ok tt).
Proof.
  intros H1 H2 H3. unfold start, bind.
  rewrite (timers_get_Some _ _ _ _ H1 H2), H3. cbn.
  rewrite forEach_call. cbn. unfold write. cbn. rewrite insert_insert_eq.
  by rewrite <- app_assoc.
Qed.

Lemma stop_absent (id : string) (now : Z) (s : State) :
  timers s !! id = None → stop id now s = (s, Ok tt).
Proof. intros H. unfold stop, bind. by rewrite (timers_get_None _ _ H). Qed.

Lemma stop_stopped (id : string) (now : Z) (s : State) l t :
  timers s !! id = Some l → heap s !! l = Some t → intervalId t = None →
  stop id now s = (s, Ok tt).
Proof.
  intros H1 H2 H3. unfold stop, bind.
  by rewrite (timers_get_Some _ _ _ _ H1 H2), H3.
Qed.

Lemma stop_running (id : string) (now : Z) (s : State) l t h :
  timers s !! id = Some l → heap s !! l = Some t → intervalId t = Some h →
  stop id now s =
  (mkState (<[l := set_intervalId None
                     (set_elapsedTime (elapsedTime t + (now - startTs t)) t)]> (heap s))
           (nextLoc s) (timers s) (delete h (intervals s)) (nextHandle s)
           (out s ++ [ClearInterval h]),
   Ok tt).
Proof.
  intros H1 H2 H3. unfold stop, bind.
  rewrite (timers_get_Some _ _ _ _ H1 H2), H3. unfold write, clearInterval. cbn.
  by rewrite insert_insert_eq.
Qed.

Lemma clear_absent (id : string) (now : Z) (s : State) :
  timers s !! id = None → clear id now s = (s, Ok tt).
Proof.
  intros H. unfold clear, bind. rewrite (stop_absent _ _ _ H).
  unfold timers_delete. rewrite (delete_id _ _ H). by rewrite state_eta.
Qed.

Lemma clear_stopped (id : string) (now : Z) (s : State) l t :
  timers s !! id = Some l → heap s !! l = Some t → intervalId t = None →
  clear id now s =
  (mkState (heap s) (nextLoc s) (delete id (timers s)) (intervals s)
           (nextHandle s) (out s), Ok tt).
Proof.
  intros H1 H2 H3. unfold clear, bind.
  by rewrite (stop_stopped _ _ _ _ _ H1 H2 H3).
Qed.

Lemma clear_running (id : string) (now : Z) (s : State) l t h :
  timers s !! id = Some l → heap s !! l = Some t → intervalId t = Some h →
  clear id now s =
  (mkState (<[l := set_intervalId None
                     (set_elapsedTime (elapsedTime t + (now - startTs t)) t)]> (heap s))
           (nextLoc s) (delete id (timers s)) (delete h (intervals s))
           (nextHandle s) (out s ++ [ClearInterval h]),
   Ok tt).
Proof.
  intros H1 H2 H3. unfold clear, bind.
  by rewrite (stop_running _ _ _ _ _ _ H1 H2 H3).
Qed.

Lemma create_present (id : string) (t : Timer) (s : State) :
  is_Some (timers s !! id) →
  (present <- timers_has id ;; if present then ret tt else timers_set id t) s
  = (s, Ok tt).
Proof.
  intros H. unfold bind, timers_has. by rewrite bool_decide_eq_true_2.
Qed.

Lemma create_absent (id : string) (t : Timer) (s : State) :
  timers s !! id = None →
  (present <- timers_has id ;; if present then ret tt else timers_set id t) s
  = (mkState (<[nextLoc s := t]> (heap s)) (S (nextLoc s))
             (<[id := nextLoc s]> (timers s))
             (intervals s) (nextHandle s) (out s), Ok tt).
Proof.
  intros H. unfold bind, timers_has. rewrite bool_decide_eq_false_2; [done|].
  rewrite H. by intros [? ?].
Qed.

Lemma subscribe_absent (id : string) (fn : Listener) (s : State) :
  timers s !! id = None → subscribe id fn s = (s, Throw (NotFound id)).
Proof. intros H. unfold subscribe, bind. by rewrite (timers_get_None _ _ H). Qed.

Lemma subscribe_present (id : string) (fn : Listener) (s : State) l t :
  timers s !! id = Some l → heap s !! l = Some t →
  subscribe id fn s =
  (mkState (<[l := set_listeners (Set_add fn (listeners t)) t]> (heap s))
           (nextLoc s) (timers s) (intervals s) (nextHandle s) (out s),
   Ok (mkUnsubscribe l fn)).
Proof.
  intros H1 H2. unfold subscribe, bind.
  by rewrite (timers_get_Some _ _ _ _ H1 H2).
Qed.

Lemma unsubscribe_live (u : Unsubscribe) (s : State) t :
  heap s !! u_timer u = Some t →
  unsubscribe u s =
  (mkState (<[u_timer u := set_listeners (Set_delete (u_fn u) (listeners t)) t]> (heap s))
           (nextLoc s) (timers s) (intervals s) (nextHandle s) (out s),
   Ok tt).
Proof. intros H. unfold unsubscribe, bind, deref. by rewrite H. Qed.

Lemma unsubscribe_dangling (u : Unsubscribe) (s : State) :
  heap s !! u_timer u = None → unsubscribe u s = (s, Ok tt).
Proof. intros H. unfold unsubscribe, bind, deref. by rewrite H. Qed.

Lemma getValue_absent (id : string) (now : Z) (s : State) :
  timers s !! id = None → getValue id now s = (s, Throw (NotFound id)).
Proof. intros H. unfold getValue, bind. by rewrite (timers_get_None _ _ H). Qed.

Lemma getValue_present (id : string) (now : Z) (s : State) l t :
  timers s !! id = Some l → heap s !! l = Some t →
  getValue id now s = (s, Ok (_computeValue now t)).
Proof.
  intros H1 H2. unfold getValue, bind.
  by rewrite (timers_get_Some _ _ _ _ H1 H2).
Qed.

(** The object an absent-or-dangling lookup yields: [undefined]. *)
Lemma timers_get_cases (id : string) (s : State) :
  (∃ l t, timers s !! id = Some l ∧ heap s !! l = Some t
          ∧ timers_get id s = (s, Ok (Some (l, t))))
  ∨ timers_get id s = (s, Ok None).
Proof.
  unfold timers_get. destruct (timers s !! id) as [l|] eqn:H1; [|by right].
  destruct (heap s !! l) as [t|] eqn:H2; [|by right].
  left. by exists l, t.
Qed.

Lemma tick_unarmed (h : handle) (now now' : Z) (s : State) :
  intervals s !! h = None → tick h now now' s = (s, Ok tt).
Proof. intros H. unfold tick. by rewrite H. Qed.

Lemma tick_notify (h : handle) (now now' : Z) (s : State) id l t :
  intervals s !! h = Some (id, l) → heap s !! l = Some t →
  (type t = STOPWATCH ∨ 0 < _computeValue now t) →
  tick h now now' s =
  (mkState (heap s) (nextLoc s) (timers s) (intervals s) (nextHandle s)
           (out s ++ map (λ fn, Call fn (_computeValue now t)) (listeners t)),
   Ok tt).
Proof.
  intros H1 H2 H3. unfold tick. rewrite H1. unfold onInterval, bind, deref.
  rewrite H2. destruct (type t) eqn:Ht.
  - destruct H3 as [?|H3]; [done|].
    destruct (Z.leb_spec (_computeValue now t) 0); [lia|].
    apply forEach_call.
  - apply forEach_call.
Qed.

Lemma tick_zero (h : handle) (now now' : Z) (s : State) id l t :
  intervals s !! h = Some (id, l) → timers s !! id = Some l →
  heap s !! l = Some t → intervalId t = Some h →
  type t = TIMER → _computeValue now t ≤ 0 →
  tick h now now' s =
  (mkState (<[l := set_intervalId None
                     (set_elapsedTime (elapsedTime t + (now' - startTs t)) t)]> (heap s))
           (nextLoc s) (delete id (timers s)) (delete h (intervals s))
           (nextHandle s)
           (out s ++ map (λ fn, Call fn 0) (listeners t) ++ [ClearInterval h]),
   Ok tt).
Proof.
  intros H1 H2 H3 H4 H5 H6. unfold tick. rewrite H1.
  unfold onInterval, bind, deref. rewrite H3, H5.
  destruct (Z.leb_spec (_computeValue now t) 0); [|lia].
  rewrite forEach_call.
  erewrite clear_running; [|done..]. cbn. by rewrite <- app_assoc.
Qed.

(** ** Preservation of well-formedness *)

Lemma wf_init : wf init.
Proof. constructor; cbn; intros *; rewrite ?lookup_empty; try done; by intros [? ?]. Qed.

Lemma wf_out (s : State) (o : list Effect) :
  wf s →
  wf (mkState (heap s) (nextLoc s) (timers s) (intervals s) (nextHandle s) o).
Proof. intros []. by constructor. Qed.

Lemma wf_alloc (s : State) (id : string) (t : Timer) (o : list Effect) :
  wf s → timers s !! id = None → intervalId t = None → NoDup (listeners t) →
  wf (mkState (<[nextLoc s := t]> (heap s)) (S (nextLoc s))
              (<[id := nextLoc s]> (timers s))
              (intervals s) (nextHandle s) o).
Proof.
  intros [W1 W2 W3 W4 W5 W6 W7] Hid Ht Hnd.
  assert (Hfresh : heap s !! nextLoc s = None).
  { destruct (heap s !! nextLoc s) eqn:E; [|done].
    assert (HS : is_Some (heap s !! nextLoc s)) by (by rewrite E).
    apply W2 in HS. lia. }
  constructor; cbn.
  - intros id' l. rewrite lookup_insert_Some, lookup_insert_is_Some.
    intros [[-> <-]|[? H]]; [by left|]. right. split; [|by eapply W1].
    intros <-. apply W1 in H. rewrite Hfresh in H. by destruct H.
  - intros l. rewrite lookup_insert_is_Some. intros [<-|[? H]]; [lia|].
    apply W2 in H. lia.
  - intros id1 id2 l. rewrite !lookup_insert_Some.
    intros [[-> <-]|[? H1]] [[-> E]|[? H2]]; try done.
    + apply W1 in H2. rewrite Hfresh in H2. by destruct H2.
    + subst l. apply W1 in H1. rewrite Hfresh in H1. by destruct H1.
    + by eapply W3.
  - intros h id' l H. destruct (W4 _ _ _ H) as (H1 & t' & H2 & H3).
    assert (l ≠ nextLoc s) by (intros ->; congruence).
    assert (id' ≠ id) by (intros ->; congruence).
    rewrite !lookup_insert_ne by done. eauto.
  - done.
  - intros l t' h. rewrite lookup_insert_Some.
    intros [[<- <-]|[? H]] Hh; [congruence|]. by eapply W6.
  - intros l t'. rewrite lookup_insert_Some.
    intros [[<- <-]|[? H]]; [done|]. by eapply W7.
Qed.

Lemma wf_update (s : State) (l : loc) (t t' : Timer) (o : list Effect) :
  wf s → heap s !! l = Some t →
  intervalId t' = intervalId t → NoDup (listeners t') →
  wf (mkState (<[l := t']> (heap s)) (nextLoc s) (timers s)
              (intervals s) (nextHandle s) o).
Proof.
  intros [W1 W2 W3 W4 W5 W6 W7] Hl Hi Hnd. constructor; cbn.
  - intros id l' H. rewrite lookup_insert_is_Some'. right. by eapply W1.
  - intros l'. rewrite lookup_insert_is_Some. intros [<-|[? H]]; [|by apply W2].
    apply W2. by rewrite Hl.
  - done.
  - intros h id l' H. destruct (W4 _ _ _ H) as (H1 & t1 & H2 & H3).
    split; [done|]. destruct (decide (l = l')) as [<-|Hne].
    + exists t'. rewrite lookup_insert_eq. split; [done|]. congruence.
    + exists t1. by rewrite lookup_insert_ne.
  - done.
  - intros l' t1 h. rewrite lookup_insert_Some.
    intros [[<- <-]|[? H]] Hh; [|by eapply W6].
    eapply W6; [done|]. congruence.
  - intros l' t1. rewrite lookup_insert_Some.
    intros [[<- <-]|[? H]]; [done|]. by eapply W7.
Qed.

Lemma wf_arm (s : State) (id : string) (l : loc) (t t' : Timer) (o : list Effect) :
  wf s → timers s !! id = Some l → heap s !! l = Some t → intervalId t = None →
  intervalId t' = Some (nextHandle s) → NoDup (listeners t') →
  wf (mkState (<[l := t']> (heap s)) (nextLoc s) (timers s)
              (<[nextHandle s := (id, l)]> (intervals s))
              (S (nextHandle s)) o).
Proof.
  intros [W1 W2 W3 W4 W5 W6 W7] Hid Hl Hi Hi' Hnd.
  assert (Hfresh : intervals s !! nextHandle s = None).
  { destruct (intervals s !! nextHandle s) eqn:E; [|done].
    assert (HS : is_Some (intervals s !! nextHandle s)) by (by rewrite E).
    apply W5 in HS. lia. }
  constructor; cbn.
  - intros id' l' H. rewrite lookup_insert_is_Some'. right. by eapply W1.
  - intros l'. rewrite lookup_insert_is_Some. intros [<-|[? H]]; [|by apply W2].
    apply W2. by rewrite Hl.
  - done.
  - intros h id' l'. rewrite lookup_insert_Some.
    intros [[<- [= <- <-]]|[Hne H]].
    + split; [done|]. exists t'. by rewrite lookup_insert_eq.
    + destruct (W4 _ _ _ H) as (H1 & t1 & H2 & H3). split; [done|].
      assert (l ≠ l') by (intros <-; congruence).
      exists t1. by rewrite lookup_insert_ne.
  - intros h. rewrite lookup_insert_is_Some. intros [<-|[? H]]; [lia|].
    apply W5 in H. lia.
  - intros l' t1 h. rewrite lookup_insert_Some.
    intros [[<- <-]|[Hne H]] Hh.
    + exists id. rewrite Hi' in Hh. injection Hh as <-. by rewrite lookup_insert_eq.
    + destruct (W6 _ _ _ H Hh) as [id' Hid']. exists id'.
      rewrite lookup_insert_ne; [done|]. intros <-. congruence.
  - intros l' t1. rewrite lookup_insert_Some.
    intros [[<- <-]|[? H]]; [done|]. by eapply W7.
Qed.

Lemma wf_disarm (s : State) (id : string) (l : loc) (t t' : Timer) (h : handle)
    (o : list Effect) :
  wf s → timers s !! id = Some l → heap s !! l = Some t → intervalId t = Some h →
  intervalId t' = None → NoDup (listeners t') →
  wf (mkState (<[l := t']> (heap s)) (nextLoc s) (timers s)
              (delete h (intervals s)) (nextHandle s) o).
Proof.
  intros [W1 W2 W3 W4 W5 W6 W7] Hid Hl Hi Hi' Hnd. constructor; cbn.
  - intros id' l' H. rewrite lookup_insert_is_Some'. right. by eapply W1.
  - intros l'. rewrite lookup_insert_is_Some. intros [<-|[? H]]; [|by apply W2].
    apply W2. by rewrite Hl.
  - done.
  - intros h' id' l'. rewrite lookup_delete_Some. intros [Hne H].
    destruct (W4 _ _ _ H) as (H1 & t1 & H2 & H3). split; [done|].
    assert (l ≠ l') by (intros <-; congruence).
    exists t1. by rewrite lookup_insert_ne.
  - intros h'. rewrite lookup_delete_is_Some. intros [? H]. by apply W5.
  - intros l' t1 h'. rewrite lookup_insert_Some.
    intros [[<- <-]|[Hne H]] Hh; [congruence|].
    destruct (W6 _ _ _ H Hh) as [id' Hid']. exists id'.
    rewrite lookup_delete_ne; [done|]. intros <-.
    destruct (W6 _ _ _ Hl Hi) as [id'' Hid'']. congruence.
  - intros l' t1. rewrite lookup_insert_Some.
    intros [[<- <-]|[? H]]; [done|]. by eapply W7.
Qed.

Lemma wf_remove (s : State) (id : string) (l : loc) (t : Timer) (o : list Effect) :
  wf s → timers s !! id = Some l → heap s !! l = Some t → intervalId t = None →
  wf (mkState (heap s) (nextLoc s) (delete id (timers s))
              (intervals s) (nextHandle s) o).
Proof.
  intros [W1 W2 W3 W4 W5 W6 W7] Hid Hl Hi. constructor; cbn; try done.
  - intros id' l'. rewrite lookup_delete_Some. intros [? H]. by eapply W1.
  - intros id1 id2 l'. rewrite !lookup_delete_Some. intros [? H1] [? H2].
    by eapply W3.
  - intros h id' l' H. destruct (W4 _ _ _ H) as (H1 & t1 & H2 & H3).
    split; [|eauto]. rewrite lookup_delete_ne; [done|].
    intros <-. congruence.
Qed.

Lemma NoDup_Set_add (fn : Listener) (ls : list Listener) :
  NoDup ls → NoDup (Set_add fn ls).
Proof.
  intros H. unfold Set_add. case_decide; [done|].
  apply NoDup_app. split_and!; [done| |apply NoDup_singleton].
  intros x Hx ->%list_elem_of_singleton. done.
Qed.

Lemma NoDup_Set_delete (fn : Listener) (ls : list Listener) :
  NoDup ls → NoDup (Set_delete fn ls).
Proof. apply NoDup_filter; apply _. Qed.

Lemma wf_stop (id : string) (now : Z) (s : State) :
  wf s → wf (stop id now s).1.
Proof.
  intros W. destruct (timers_get_cases id s) as [(l & t & H1 & H2 & _)|H].
  - destruct (intervalId t) as [h|] eqn:Hi.
    + rewrite (stop_running _ _ _ _ _ _ H1 H2 Hi). cbn.
      eapply wf_disarm; try done. cbn. by eapply wf_nodup.
    + by rewrite (stop_stopped _ _ _ _ _ H1 H2 Hi).
  - unfold stop, bind. by rewrite H.
Qed.

Lemma stop_frame (id : string) (now : Z) (s : State) :
  timers (stop id now s).1 = timers s
  ∧ (stop id now s).2 = Ok tt
  ∧ ∀ l t, timers s !! id = Some l → heap (stop id now s).1 !! l = Some t →
           intervalId t = None.
Proof.
  destruct (timers_get_cases id s) as [(l & t & H1 & H2 & _)|H].
  - destruct (intervalId t) as [h|] eqn:Hi.
    + rewrite (stop_running _ _ _ _ _ _ H1 H2 Hi). cbn. split_and!; try done.
      intros l' t'. rewrite H1. intros [= <-]. rewrite lookup_insert_eq.
      by intros [= <-].
    + rewrite (stop_stopped _ _ _ _ _ H1 H2 Hi). cbn. split_and!; try done.
      intros l' t'. rewrite H1. intros [= <-]. rewrite H2. by intros [= <-].
  - unfold stop, bind. rewrite H. cbn. split_and!; try done.
    intros l t H1 H2. unfold timers_get in H. rewrite H1, H2 in H. done.
Qed.

Lemma wf_clear (id : string) (now : Z) (s : State) :
  wf s → wf (clear id now s).1.
Proof.
  intros W. pose proof (wf_stop id now s W) as W'.
  destruct (stop_frame id now s) as (Ht & Hr & Hi).
  unfold clear, bind. destruct (stop id now s) as [s1 r] eqn:E.
  cbn in *. subst r. cbn.
  destruct (timers s1 !! id) as [l|] eqn:H1.
  - destruct (wf_timers _ W' _ _ H1) as [t H2].
    eapply wf_remove; try done. eapply Hi; [|done]. by rewrite <- Ht.
  - rewrite (delete_id _ _ H1). by rewrite state_eta.
Qed.

Lemma wf_tick (h : handle) (now now' : Z) (s : State) :
  wf s → wf (tick h now now' s).1.
Proof.
  intros W. unfold tick. destruct (intervals s !! h) as [[id l]|] eqn:Hh; [|done].
  destruct (wf_intervals _ W _ _ _ Hh) as (H1 & t & H2 & H3).
  unfold onInterval, bind, deref. rewrite H2.
  destruct (type t).
  - destruct (_computeValue now t <=? 0).
    + rewrite forEach_call. apply wf_clear. by apply wf_out.
    + rewrite forEach_call. by apply wf_out.
  - rewrite forEach_call. by apply wf_out.
Qed.

Lemma wf_step (s : State) (op : Op) : wf s → wf (step s op).
Proof.
  intros W. unfold step. destruct op as
    [id e|id d|id now|id now|id now|id fn|u|id now|h now now']; unfold exec.
  - unfold bind at 1. unfold createStopWatch.
    destruct (timers s !! id) as [l|] eqn:H.
    + by rewrite create_present.
    + rewrite (create_absent _ _ _ H). cbn. eapply wf_alloc; try done. constructor.
  - unfold bind at 1. unfold createTimer.
    destruct (timers s !! id) as [l|] eqn:H.
    + by rewrite create_present.
    + rewrite (create_absent _ _ _ H). cbn. eapply wf_alloc; try done. constructor.
  - unfold bind at 1.
    destruct (timers_get_cases id s) as [(l & t & H1 & H2 & _)|H].
    + destruct (intervalId t) as [h|] eqn:Hi.
      * by rewrite (start_running _ _ _ _ _ _ H1 H2 Hi).
      * rewrite (start_stopped _ _ _ _ _ H1 H2 Hi). cbn.
        eapply wf_arm; try done. cbn. by eapply wf_nodup.
    + unfold start, bind. by rewrite H.
  - unfold bind at 1. pose proof (wf_stop id now s W).
    by destruct (stop id now s) as [? []].
  - unfold bind at 1. pose proof (wf_clear id now s W).
    by destruct (clear id now s) as [? []].
  - unfold bind at 1.
    destruct (timers_get_cases id s) as [(l & t & H1 & H2 & _)|H].
    + rewrite (subscribe_present _ _ _ _ _ H1 H2). cbn.
      eapply wf_update; try done. cbn. apply NoDup_Set_add. by eapply wf_nodup.
    + unfold subscribe, bind. by rewrite H.
  - unfold bind at 1. destruct (heap s !! u_timer u) as [t|] eqn:H.
    + rewrite (unsubscribe_live _ _ _ H). cbn.
      eapply wf_update; try done. cbn. apply NoDup_Set_delete. by eapply wf_nodup.
    + by rewrite (unsubscribe_dangling _ _ H).
  - unfold bind at 1.
    destruct (timers_get_cases id s) as [(l & t & H1 & H2 & _)|H].
    + by rewrite (getValue_present _ _ _ _ _ H1 H2).
    + unfold getValue, bind. by rewrite H.
  - unfold bind at 1. pose proof (wf_tick h now now' s W).
    by destruct (tick h now now' s) as [? []].
Qed.

Lemma run_snoc (ops : list Op) (op : Op) (s : State) :
  run (ops ++ [op]) s = step (run ops s) op.
Proof. unfold run. by rewrite foldl_snoc. Qed.

Lemma run_app (ops ops' : list Op) (s : State) :
  run (ops ++ ops') s = run ops' (run ops s).
Proof. unfold run. by rewrite foldl_app. Qed.

Lemma wf_run (ops : list Op) (s : State) : wf s → wf (run ops s).
Proof.
  intros W. induction ops as [|op ops IH] using rev_ind; [done|].
  rewrite run_snoc. by apply wf_step.
Qed.

Lemma wf_reachable (ops : list Op) : wf (run ops init).
Proof. apply wf_run, wf_init. Qed.

(** ** Value computation *)

Lemma computeValue_stopwatch (now : Z) (t : Timer) :
  type t = STOPWATCH →
  _computeValue now t =
  elapsedTime t + match intervalId t with Some _ => now - startTs t | None => 0 end.
Proof. intros H. unfold _computeValue. by rewrite H. Qed.

Lemma computeValue_timer (now : Z) (t : Timer) :
  type t = TIMER →
  _computeValue now t =
  Z.max 0 (default 0 (initialDuration t)
           - (elapsedTime t
              + match intervalId t with Some _ => now - startTs t | None => 0 end)).
Proof.
  intros H. unfold _computeValue. rewrite H. cbv zeta.
  match goal with |- context [?a >? 0] => destruct (Z.gtb_spec a 0) end; lia.
Qed.

(** C1: the value of an entry at a time is computed from the entry
    alone: with [sinceStart] the time since [startTs] when running and 0
    otherwise, and [total] the accumulated time plus [sinceStart], a
    stopwatch is worth [total] and a countdown of duration [d] is worth
    [max 0 (d - total)]; [getValue] on a registered id returns that value
    and leaves the state as it was. *)
Theorem getValue_computes (ops : list Op) (id : string) (l : loc) (now : Z) :
  timers (run ops init) !! id = Some l →
  ∃ t, heap (run ops init) !! l = Some t
    ∧ getValue id now (run ops init) = (run ops init, Ok (_computeValue now t))
    ∧ let sinceStart :=
        if bool_decide (intervalId t ≠ None) then now - startTs t else 0 in
      let total := elapsedTime t + sinceStart in
      (type t = STOPWATCH → _computeValue now t = total)
      ∧ (∀ d, type t = TIMER → initialDuration t = Some d →
              _computeValue now t = Z.max 0 (d - total)).
Proof.
  intros H1. destruct (wf_timers _ (wf_reachable ops) _ _ H1) as [t H2].
  exists t. split; [done|]. split; [by apply getValue_present with l|].
  cbv zeta. split.
  - intros Ht. rewrite (computeValue_stopwatch _ _ Ht).
    by destruct (intervalId t).
  - intros d Ht Hd. rewrite (computeValue_timer _ _ Ht), Hd.
    by destruct (intervalId t).
Qed.

Lemma getValue_computes_witness :
  timers (run hist_C1 init) !! "b" = Some 0%nat
  ∧ getValue "b" 1700000001500 (run hist_C1 init) = (run hist_C1 init, Ok 2100).
Proof.
  split; [reflexivity|].
  destruct (getValue_computes hist_C1 "b" 0%nat 1700000001500 eq_refl)
    as (t & Ht & Hg & _).
  vm_compute in Ht. injection Ht as <-. exact Hg.
Defined.

(** ** Absent ids *)

(** C3: on an id that is not registered, [start], [subscribe] and
    [getValue] throw the not-found error, [stop] and [clear] return
    normally, and all five leave the state as it was. *)
Theorem absent_id (s : State) (id : string) (now : Z) (fn : Listener) :
  timers s !! id = None →
  start id now s = (s, Throw (NotFound id))
  ∧ subscribe id fn s = (s, Throw (NotFound id))
  ∧ getValue id now s = (s, Throw (NotFound id))
  ∧ stop id now s = (s, Ok tt)
  ∧ clear id now s = (s, Ok tt).
Proof.
  intros H. split_and!.
  - by apply start_absent.
  - by apply subscribe_absent.
  - by apply getValue_absent.
  - by apply stop_absent.
  - by apply clear_absent.
Qed.

Lemma absent_id_witness :
  timers (run hist_C3 init) !! "zz" = None
  ∧ start "zz" 1700000000500 (run hist_C3 init)
    = (run hist_C3 init, Throw (NotFound "zz"))
  ∧ clear "zz" 1700000000500 (run hist_C3 init) = (run hist_C3 init, Ok tt).
Proof.
  split; [reflexivity|].
  destruct (absent_id (run hist_C3 init) "zz" 1700000000500 2%nat eq_refl)
    as (H1 & _ & _ & _ & H5).
  by split.
Defined.

(** ** Monotonicity of the value *)

Lemma computeValue_mono (t : Timer) (t1 t2 : Z) :
  t1 ≤ t2 →
  (type t = TIMER → 0 ≤ _computeValue t2 t ≤ _computeValue t1 t)
  ∧ (type t = STOPWATCH → _computeValue t1 t ≤ _computeValue t2 t).
Proof.
  intros Hle. split; intros Ht.
  - rewrite !(computeValue_timer _ _ Ht). destruct (intervalId t); lia.
  - rewrite !(computeValue_stopwatch _ _ Ht). destruct (intervalId t); lia.
Qed.

(** C6: two reads of a running entry at times [t1 ≤ t2], with nothing
    done to the registry in between, return [v1] and [v2] with
    [0 ≤ v2 ≤ v1] for a countdown and [v1 ≤ v2] for a stopwatch. *)
Theorem getValue_monotone (s : State) (id : string) (l : loc) (t : Timer)
    (h : handle) (t1 t2 : Z) :
  timers s !! id = Some l → heap s !! l = Some t → intervalId t = Some h →
  t1 ≤ t2 →
  ∃ v1 v2,
    getValue id t1 s = (s, Ok v1) ∧ getValue id t2 s = (s, Ok v2)
    ∧ (type t = TIMER → 0 ≤ v2 ≤ v1 ∧ 0 ≤ v1)
    ∧ (type t = STOPWATCH → v1 ≤ v2).
Proof.
  intros H1 H2 _ Hle. exists (_computeValue t1 t), (_computeValue t2 t).
  rewrite !(getValue_present _ _ _ _ _ H1 H2).
  destruct (computeValue_mono t t1 t2 Hle) as [Hd Hu].
  split_and!; try done. intros Ht. specialize (Hd Ht). lia.
Qed.

Lemma getValue_monotone_witness :
  timers (run hist_C6 init) !! "b" = Some 0%nat
  ∧ 1700000001000 ≤ 1700000002500
  ∧ ∃ v1 v2,
      getValue "b" 1700000001000 (run hist_C6 init) = (run hist_C6 init, Ok v1)
      ∧ getValue "b" 1700000002500 (run hist_C6 init) = (run hist_C6 init, Ok v2)
      ∧ 0 ≤ v2 ≤ v1.
Proof.
  split; [reflexivity|]. split; [lia|].
  destruct (getValue_monotone (run hist_C6 init) "b" 0%nat
              (mkTimer 1700000000000 0 (Some 0%nat) [] TIMER (Some 3000))
              0%nat 1700000001000 1700000002500
              eq_refl eq_refl eq_refl ltac:(lia))
    as (v1 & v2 & Hg1 & Hg2 & Hd & _).
  exists v1, v2. split_and!; try done; apply (Hd eq_refl).
Defined.

(** ** Stopping *)

(** C5: [stop] on a running entry adds [now - startTs] to the
    accumulated time, cancels the entry's callback (no callback stays
    armed for it) and marks it not running; nothing but the
    [clearInterval] call leaves the module, the entry stays registered,
    its value no longer depends on the clock and is the value it had at
    the stop, and a later [start] resumes from the accumulated time. *)
Theorem stop_pauses (ops : list Op) (id : string) (l : loc) (t : Timer)
    (h : handle) (now : Z) :
  timers (run ops init) !! id = Some l →
  heap (run ops init) !! l = Some t →
  intervalId t = Some h →
  ∃ s' t',
    stop id now (run ops init) = (s', Ok tt)
    ∧ heap s' !! l = Some t'
    ∧ elapsedTime t' = elapsedTime t + (now - startTs t)
    ∧ intervalId t' = None
    ∧ listeners t' = listeners t ∧ type t' = type t
    ∧ initialDuration t' = initialDuration t
    ∧ (∀ h' id', intervals s' !! h' ≠ Some (id', l))
    ∧ out s' = out (run ops init) ++ [ClearInterval h]
    ∧ timers s' = timers (run ops init)
    ∧ (∀ now', _computeValue now' t' = _computeValue now t)
    ∧ ∀ now', ∃ s'' t'',
        start id now' s' = (s'', Ok tt) ∧ heap s'' !! l = Some t''
        ∧ elapsedTime t'' = elapsedTime t' ∧ startTs t'' = now'
        ∧ intervalId t'' = Some (nextHandle s').
Proof.
  intros H1 H2 H3. pose proof (wf_reachable ops) as W.
  rewrite (stop_running _ _ _ _ _ _ H1 H2 H3).
  set (t' := set_intervalId None
               (set_elapsedTime (elapsedTime t + (now - startTs t)) t)).
  match goal with |- context [(?st, Ok tt)] => set (s' := st) end.
  assert (Hl : heap s' !! l = Some t') by apply lookup_insert_eq.
  exists s', t'. split_and!; try done.
  - intros h' id'. unfold s'. cbn. rewrite lookup_delete_Some. intros [Hne H].
    destruct (wf_intervals _ W _ _ _ H) as (_ & t1 & Ht1 & Hh). congruence.
  - intros now'. unfold _computeValue, t'. cbn. rewrite H3.
    by replace (elapsedTime t + (now - startTs t) + 0)
      with (elapsedTime t + (now - startTs t)) by lia.
  - intros now'.
    assert (Hid : timers s' !! id = Some l) by done.
    rewrite (start_stopped _ now' _ _ _ Hid Hl eq_refl).
    eexists _, _. split; [done|]. cbn. by rewrite lookup_insert_eq.
Qed.

Lemma stop_pauses_witness :
  timers (run hist_C5 init) !! "a" = Some 0%nat
  ∧ heap (run hist_C5 init) !! 0%nat
    = Some (mkTimer 1700000000000 250 (Some 0%nat) [1%nat] STOPWATCH None)
  ∧ ∃ s' t',
      stop "a" 1700000002300 (run hist_C5 init) = (s', Ok tt)
      ∧ heap s' !! 0%nat = Some t' ∧ elapsedTime t' = 2550
      ∧ intervalId t' = None
      ∧ out s' = out (run hist_C5 init) ++ [ClearInterval 0%nat].
Proof.
  split; [reflexivity|]. split; [reflexivity|].
  destruct (stop_pauses hist_C5 "a" 0%nat
              (mkTimer 1700000000000 250 (Some 0%nat) [1%nat] STOPWATCH None)
              0%nat 1700000002300 eq_refl eq_refl eq_refl)
    as (s' & t' & Hs & Hh & He & Hi & _ & _ & _ & _ & Ho & _).
  exists s', t'. by split_and!.
Defined.

(** ** Ticks *)

(** C2: when the callback of a countdown fires and the value computed is
    at most 0, every listener of the entry is called with 0 while the
    entry is still registered and armed; then [clear] runs, which cancels
    the callback and removes the entry; the only call that leaves the
    module after the listeners' is [clearInterval]. *)
Theorem tick_expires (ops : list Op) (h : handle) (id : string) (l : loc)
    (t : Timer) (now now' : Z) :
  intervals (run ops init) !! h = Some (id, l) →
  heap (run ops init) !! l = Some t →
  type t = TIMER →
  _computeValue now t ≤ 0 →
  ∃ s1 s',
    intervalId t = Some h
    ∧ forEach (listeners t) (λ fn, call fn 0) (run ops init) = (s1, Ok tt)
    ∧ out s1 = out (run ops init) ++ map (λ fn, Call fn 0) (listeners t)
    ∧ timers s1 !! id = Some l
    ∧ intervals s1 !! h = Some (id, l)
    ∧ clear id now' s1 = (s', Ok tt)
    ∧ tick h now now' (run ops init) = (s', Ok tt)
    ∧ timers s' !! id = None
    ∧ (∀ id', timers s' !! id' ≠ Some l)
    ∧ intervals s' !! h = None
    ∧ (∀ h' id', intervals s' !! h' ≠ Some (id', l))
    ∧ out s' = out s1 ++ [ClearInterval h].
Proof.
  intros Hh H2 Ht Hv. pose proof (wf_reachable ops) as W.
  destruct (wf_intervals _ W _ _ _ Hh) as (H1 & t0 & H2' & H3).
  assert (t0 = t) as -> by congruence.
  pose (s1 := mkState (heap (run ops init)) (nextLoc (run ops init))
                      (timers (run ops init)) (intervals (run ops init))
                      (nextHandle (run ops init))
                      (out (run ops init) ++ map (λ fn, Call fn 0) (listeners t))).
  exists s1. eexists. split_and!.
  - done.
  - apply forEach_call.
  - done.
  - done.
  - done.
  - apply (clear_running id now' s1 l t h H1 H2 H3).
  - rewrite (tick_zero _ _ now' _ _ _ _ Hh H1 H2 H3 Ht Hv). cbn.
    by rewrite app_assoc.
  - apply lookup_delete_eq.
  - intros id'. cbn. rewrite lookup_delete_Some. intros [Hne H].
    destruct Hne. by eapply wf_inj.
  - apply lookup_delete_eq.
  - intros h' id'. cbn. rewrite lookup_delete_Some. intros [Hne H].
    destruct (wf_intervals _ W _ _ _ H) as (_ & t1 & Ht1 & Hh'). congruence.
  - done.
Qed.

Lemma tick_expires_witness :
  intervals (run hist_C2 init) !! 0%nat = Some ("b", 0%nat)
  ∧ heap (run hist_C2 init) !! 0%nat
    = Some (mkTimer 1700000000000 0 (Some 0%nat) [1; 2]%nat TIMER (Some 3000))
  ∧ _computeValue 1700000003002
      (mkTimer 1700000000000 0 (Some 0%nat) [1; 2]%nat TIMER (Some 3000)) ≤ 0
  ∧ ∃ s',
      tick 0%nat 1700000003002 1700000003003 (run hist_C2 init) = (s', Ok tt)
      ∧ timers s' !! "b" = None
      ∧ out s' = out (run hist_C2 init)
                 ++ [Call 1%nat 0; Call 2%nat 0; ClearInterval 0%nat].
Proof.
  split; [reflexivity|]. split; [reflexivity|]. split; [by vm_compute|].
  destruct (tick_expires hist_C2 0%nat "b" 0%nat
              (mkTimer 1700000000000 0 (Some 0%nat) [1; 2]%nat TIMER (Some 3000))
              1700000003002 1700000003003 eq_refl eq_refl eq_refl
              ltac:(by vm_compute))
    as (s1 & s' & _ & _ & Ho1 & _ & _ & _ & Hk & Hn & _ & _ & _ & Ho).
  exists s'. split_and!; [done|done|].
  rewrite Ho, Ho1. by rewrite <- app_assoc.
Defined.

(** ** Starting *)

(** C4: [start] on a running entry returns at once and changes nothing:
    same [startTs], no call to a listener, no second callback armed.
    Exactly one callback is armed for the entry, the listener set has no
    duplicates, and one firing of that callback calls every listener once
    with one value. *)
Theorem start_running_noop (ops : list Op) (id : string) (l : loc) (t : Timer)
    (h : handle) (now : Z) :
  timers (run ops init) !! id = Some l →
  heap (run ops init) !! l = Some t →
  intervalId t = Some h →
  start id now (run ops init) = (run ops init, Ok tt)
  ∧ (∀ h' id', intervals (run ops init) !! h' = Some (id', l) ↔ h' = h ∧ id' = id)
  ∧ NoDup (listeners t)
  ∧ ∀ n n', ∃ v rest,
      out (tick h n n' (run ops init)).1
      = out (run ops init) ++ map (λ fn, Call fn v) (listeners t) ++ rest
      ∧ (rest = [] ∨ rest = [ClearInterval h]).
Proof.
  intros H1 H2 H3. pose proof (wf_reachable ops) as W.
  assert (Hh : intervals (run ops init) !! h = Some (id, l)).
  { destruct (wf_running _ W _ _ _ H2 H3) as [id0 H0].
    destruct (wf_intervals _ W _ _ _ H0) as (H1' & _).
    by rewrite (wf_inj _ W _ _ _ H1 H1'). }
  split_and!.
  - apply (start_running _ _ _ _ _ _ H1 H2 H3).
  - intros h' id'. split.
    + intros H. destruct (wf_intervals _ W _ _ _ H) as (H1' & t1 & Ht1 & Hh').
      split; [congruence|]. by eapply wf_inj.
    + by intros [-> ->].
  - by eapply wf_nodup.
  - intros n n'. destruct (type t) eqn:Ht.
    + destruct (Z.le_gt_cases (_computeValue n t) 0) as [Hv|Hv].
      * rewrite (tick_zero _ _ n' _ _ _ _ Hh H1 H2 H3 Ht Hv). cbn.
        exists 0, [ClearInterval h]. split; [done|by right].
      * rewrite (tick_notify _ n n' _ _ _ _ Hh H2 (or_intror Hv)). cbn.
        exists (_computeValue n t), []. rewrite app_nil_r. split; [done|by left].
    + rewrite (tick_notify _ n n' _ _ _ _ Hh H2 (or_introl Ht)). cbn.
      exists (_computeValue n t), []. rewrite app_nil_r. split; [done|by left].
Qed.

Lemma start_running_noop_witness :
  timers (run hist_C4 init) !! "a" = Some 0%nat
  ∧ heap (run hist_C4 init) !! 0%nat
    = Some (mkTimer 1700000000000 0 (Some 0%nat) [1%nat] STOPWATCH None)
  ∧ start "a" 1700000000700 (run hist_C4 init) = (run hist_C4 init, Ok tt).
Proof.
  split; [reflexivity|]. split; [reflexivity|].
  exact (proj1 (start_running_noop hist_C4 "a" 0%nat
                  (mkTimer 1700000000000 0 (Some 0%nat) [1%nat] STOPWATCH None)
                  0%nat 1700000000700 eq_refl eq_refl eq_refl)).
Defined.

(** C10: [start] on a stopped countdown whose value is already at most 0
    calls the listeners with 0 and arms the callback, but does not remove
    the entry: it stays registered and [getValue] on it returns (0 from
    the start time on); the first firing of the callback is what calls
    the listeners with 0 again and removes it. *)
Theorem start_expired_stays (s : State) (id : string) (l : loc) (t : Timer)
    (now : Z) :
  timers s !! id = Some l → heap s !! l = Some t →
  type t = TIMER → intervalId t = None →
  _computeValue now t ≤ 0 →
  ∃ s',
    start id now s = (s', Ok tt)
    ∧ out s' = out s ++ map (λ fn, Call fn 0) (listeners t)
                     ++ [SetInterval (nextHandle s) 1000]
    ∧ timers s' = timers s
    ∧ intervals s' !! nextHandle s = Some (id, l)
    ∧ (∀ now', ∃ v, getValue id now' s' = (s', Ok v) ∧ (now ≤ now' → v = 0))
    ∧ ∀ now' now'', now ≤ now' →
        ∃ s'', tick (nextHandle s) now' now'' s' = (s'', Ok tt)
          ∧ timers s'' !! id = None
          ∧ out s'' = out s' ++ map (λ fn, Call fn 0) (listeners t)
                             ++ [ClearInterval (nextHandle s)].
Proof.
  intros H1 H2 Ht Hi Hv.
  assert (Hv0 : _computeValue now (set_startTs now t) = 0).
  { rewrite computeValue_timer in * by done. cbn in *. rewrite Hi in *. lia. }
  rewrite (start_stopped _ now _ _ _ H1 H2 Hi). rewrite Hv0.
  set (t' := set_intervalId (Some (nextHandle s)) (set_startTs now t)).
  match goal with |- context [(?st, Ok tt) = (_, Ok tt)] => set (s' := st) end.
  assert (Hl : heap s' !! l = Some t') by apply lookup_insert_eq.
  assert (Hid : timers s' !! id = Some l) by done.
  assert (Hh : intervals s' !! nextHandle s = Some (id, l))
    by apply lookup_insert_eq.
  assert (Hlate : ∀ now', now ≤ now' → _computeValue now' t' ≤ 0).
  { intros now' Hle. rewrite computeValue_timer in * by done.
    cbn in *. rewrite Hi in *. lia. }
  exists s'. split_and!; try done.
  - intros now'. exists (_computeValue now' t').
    split; [apply (getValue_present _ _ _ _ _ Hid Hl)|].
    intros Hle. specialize (Hlate _ Hle).
    rewrite computeValue_timer in * by done. lia.
  - intros now' now'' Hle.
    rewrite (tick_zero _ now' now'' _ _ _ _ Hh Hid Hl eq_refl Ht (Hlate _ Hle)).
    eexists. split; [done|]. cbn. split; [apply lookup_delete_eq|done].
Qed.

Lemma start_expired_stays_witness :
  timers (run hist_C10 init) !! "z" = Some 0%nat
  ∧ heap (run hist_C10 init) !! 0%nat
    = Some (mkTimer 0 0 None [1%nat] TIMER (Some (-5)))
  ∧ _computeValue 1700000000000 (mkTimer 0 0 None [1%nat] TIMER (Some (-5))) ≤ 0
  ∧ ∃ s',
      start "z" 1700000000000 (run hist_C10 init) = (s', Ok tt)
      ∧ out s' = [Call 1%nat 0; SetInterval 0%nat 1000]
      ∧ timers s' !! "z" = Some 0%nat.
Proof.
  split; [reflexivity|]. split; [reflexivity|]. split; [by vm_compute|].
  destruct (start_expired_stays (run hist_C10 init) "z" 0%nat
              (mkTimer 0 0 None [1%nat] TIMER (Some (-5))) 1700000000000
              eq_refl eq_refl eq_refl eq_refl ltac:(by vm_compute))
    as (s' & Hs & Ho & Ht & _).
  exists s'. split_and!; [done|by rewrite Ho|by rewrite Ht].
Defined.

(** ** Exceptions *)

Lemma clear_ok (id : string) (now : Z) (s : State) : (clear id now s).2 = Ok tt.
Proof.
  destruct (stop_frame id now s) as (_ & Hr & _). unfold clear, bind.
  destruct (stop id now s) as [s1 r]. cbn in Hr. by subst r.
Qed.

Lemma tick_ok (h : handle) (now now' : Z) (s : State) :
  (tick h now now' s).2 = Ok tt.
Proof.
  unfold tick. destruct (intervals s !! h) as [[id l]|]; [|done].
  unfold onInterval, bind, deref. destruct (heap s !! l) as [t|]; [|done].
  destruct (type t); [destruct (_ <=? 0)|]; rewrite forEach_call; try done.
  apply clear_ok.
Qed.


Lemma forEach_call_throwing (throws : Listener → Z → option Error)
    (ls : list Listener) (v : Z) (s : State) :
  forEach ls (λ fn, Throwing.call throws fn v) s =
  (mkState (heap s) (nextLoc s) (timers s) (intervals s) (nextHandle s)
           (out s ++ map (λ fn, Call fn v) (called throws v ls).1),
   match (called throws v ls).2 with
   | Some e => Throw e
   | None => Ok tt
   end).
Proof.
  revert s. induction ls as [|fn ls IH]; intros s.
  - destruct s; cbn. by rewrite app_nil_r.
  - cbn [forEach called]. unfold bind at 1. unfold Throwing.call at 1.
    unfold bind, emit. destruct (throws fn v) as [e|] eqn:E; cbn.
    + done.
    + rewrite IH. cbn. by rewrite <- app_assoc.
Qed.



Lemma called_quiet (throws : Listener → Z → option Error) (v : Z)
    (ls : list Listener) :
  (∀ fn, throws fn v = None) → called throws v ls = (ls, None).
Proof.
  intros Hq. induction ls as [|fn ls IH]; [done|]. cbn. by rewrite Hq, IH.
Qed.

(** When no listener throws, [start] and the armed callback of
    [Throwing] are the ones given first. *)
Lemma forEach_call_quiet (throws : Listener → Z → option Error)
    (ls : list Listener) (v : Z) (s : State) :
  (∀ fn v', throws fn v' = None) →
  forEach ls (λ fn, Throwing.call throws fn v) s = forEach ls (λ fn, call fn v) s.
Proof.
  intros Hq. rewrite forEach_call_throwing, forEach_call.
  by rewrite called_quiet.
Qed.

Lemma start_quiet (throws : Listener → Z → option Error) (id : string)
    (now : Z) (s : State) :
  (∀ fn v, throws fn v = None) → Throwing.start throws id now s = start id now s.
Proof.
  intros Hq. unfold Throwing.start, start, bind.
  destruct (timers_get id s) as [s0 [[[l t]|]|e]]; try done.
  destruct (intervalId t); [done|]. cbn.
  by rewrite (forEach_call_quiet _ _ _ _ Hq).
Qed.

Lemma tick_quiet (throws : Listener → Z → option Error) (h : handle)
    (now now' : Z) (s : State) :
  (∀ fn v, throws fn v = None) → Throwing.tick throws h now now' s = tick h now now' s.
Proof.
  intros Hq. unfold Throwing.tick, tick.
  destruct (intervals s !! h) as [[id l]|]; [|done].
  unfold Throwing.onInterval, onInterval, bind, deref.
  destruct (heap s !! l) as [t|]; [|done].
  destruct (type t); [destruct (_ <=? 0)|];
    by rewrite (forEach_call_quiet _ _ _ _ Hq).
Qed.

Lemma exec_quiet (throws : Listener → Z → option Error) (op : Op) (s : State) :
  (∀ fn v, throws fn v = None) → Throwing.exec throws op s = exec op s.
Proof.
  intros Hq. destruct op; try done; unfold Throwing.exec, exec, bind.
  - by rewrite (start_quiet _ _ _ _ Hq).
  - by rewrite (tick_quiet _ _ _ _ _ Hq).
Qed.




(** ** What one step does to the map and to the time stamps *)

Lemma fresh_loc (s : State) : wf s → heap s !! nextLoc s = None.
Proof.
  intros W. destruct (heap s !! nextLoc s) eqn:E; [|done].
  assert (HS : is_Some (heap s !! nextLoc s)) by (by rewrite E).
  apply (wf_heap _ W) in HS. lia.
Qed.

Lemma bind_ret_fst {A B} (m : M A) (f : A → B) (s : State) :
  ((x <- m ;; ret (f x)) s).1 = (m s).1.
Proof. unfold bind, ret. by destruct (m s) as [s1 [a|e1]]. Qed.

Lemma step_cases (s : State) (op : Op) :
  wf s →
  (nextLoc s ≤ nextLoc (step s op))%nat
  ∧ (∀ id l, timers (step s op) !! id = Some l →
             timers s !! id = Some l ∨ l = nextLoc s)
  ∧ (∀ l, is_Some (heap s !! l) → is_Some (heap (step s op) !! l))
  ∧ (∀ l t', heap (step s op) !! l = Some t' →
       startTs t' =
       match starts s op with
       | Some (l0, now) =>
           if decide (l0 = l) then now else from_option startTs 0 (heap s !! l)
       | None => from_option startTs 0 (heap s !! l)
       end).
Proof.
  intros W. pose proof (fresh_loc s W) as Hfresh. unfold step.
  destruct op as [id el|id d|id now|id now|id now|id fn|u|id now|h now now'];
    unfold exec, starts; rewrite bind_ret_fst.
  - unfold createStopWatch. destruct (timers s !! id) as [l|] eqn:E.
    + rewrite create_present by (by rewrite E). shape_same.
    + rewrite (create_absent _ _ _ E). cbn. split_and!.
      * lia.
      * intros ??. rewrite lookup_insert_Some.
        intros [[_ <-]|[_ ?]]; [by right|by left].
      * intros ?. rewrite lookup_insert_is_Some'. by right.
      * intros ??. rewrite lookup_insert_Some.
        intros [[<- <-]|[? ->]]; [by rewrite Hfresh|done].
  - unfold createTimer. destruct (timers s !! id) as [l|] eqn:E.
    + rewrite create_present by (by rewrite E). shape_same.
    + rewrite (create_absent _ _ _ E). cbn. split_and!.
      * lia.
      * intros ??. rewrite lookup_insert_Some.
        intros [[_ <-]|[_ ?]]; [by right|by left].
      * intros ?. rewrite lookup_insert_is_Some'. by right.
      * intros ??. rewrite lookup_insert_Some.
        intros [[<- <-]|[? ->]]; [by rewrite Hfresh|done].
  - destruct (timers_get_cases id s) as [(l & t & H1 & H2 & E)|E];
      rewrite E; cbn [snd].
    + destruct (intervalId t) as [h|] eqn:Hi.
      * rewrite (start_running _ _ _ _ _ _ H1 H2 Hi). shape_same.
      * rewrite (start_stopped _ _ _ _ _ H1 H2 Hi). cbn. split_and!.
        -- lia.
        -- by left.
        -- intros ?. rewrite lookup_insert_is_Some'. by right.
        -- intros l0 t0. rewrite lookup_insert_Some.
           intros [[<- <-]|[? ->]]; [by rewrite decide_True|by rewrite decide_False].
    + unfold start, bind. rewrite E. shape_same.
  - destruct (timers_get_cases id s) as [(l & t & H1 & H2 & E)|E].
    + destruct (intervalId t) as [h|] eqn:Hi.
      * rewrite (stop_running _ _ _ _ _ _ H1 H2 Hi). shape_update H2.
      * rewrite (stop_stopped _ _ _ _ _ H1 H2 Hi). shape_same.
    + unfold stop, bind. rewrite E. shape_same.
  - destruct (timers_get_cases id s) as [(l & t & H1 & H2 & E)|E].
    + destruct (intervalId t) as [h|] eqn:Hi.
      * rewrite (clear_running _ _ _ _ _ _ H1 H2 Hi). shape_update H2.
      * rewrite (clear_stopped _ _ _ _ _ H1 H2 Hi). shape_same.
    + unfold clear, stop, bind. rewrite E. shape_same.
  - destruct (timers_get_cases id s) as [(l & t & H1 & H2 & E)|E].
    + rewrite (subscribe_present _ _ _ _ _ H1 H2). shape_update H2.
    + unfold subscribe, bind. rewrite E. shape_same.
  - destruct (heap s !! u_timer u) as [t|] eqn:E.
    + rewrite (unsubscribe_live _ _ _ E). shape_update E.
    + rewrite (unsubscribe_dangling _ _ E). shape_same.
  - destruct (timers_get_cases id s) as [(l & t & H1 & H2 & E)|E].
    + rewrite (getValue_present _ _ _ _ _ H1 H2). shape_same.
    + unfold getValue, bind. rewrite E. shape_same.
  - destruct (intervals s !! h) as [[id l]|] eqn:Hh.
    + destruct (wf_intervals _ W _ _ _ Hh) as (H1 & t & H2 & H3).
      destruct (type t) eqn:Ht.
      * destruct (Z.le_gt_cases (_computeValue now t) 0) as [Hv|Hv].
        -- rewrite (tick_zero _ _ now' _ _ _ _ Hh H1 H2 H3 Ht Hv).
           shape_update H2.
        -- rewrite (tick_notify _ now now' _ _ _ _ Hh H2 (or_intror Hv)).
           shape_same.
      * rewrite (tick_notify _ now now' _ _ _ _ Hh H2 (or_introl Ht)).
        shape_same.
    + rewrite (tick_unarmed _ _ _ _ Hh). shape_same.
Qed.

(** ** Time stamps *)






(** ** Unsubscribing *)

Lemma detached_step (l : loc) (s : State) (op : Op) :
  wf s → detached l s → detached l (step s op).
Proof.
  intros W [Hlt Hno]. destruct (step_cases s op W) as (Hn & Ht & _).
  split; [lia|]. intros id H. destruct (Ht _ _ H) as [H'| ->]; [|lia].
  by apply (Hno id).
Qed.

Lemma detached_run (l : loc) (ops : list Op) (s : State) :
  wf s → detached l s → detached l (run ops s).
Proof.
  revert s. induction ops as [|op ops IH]; intros s W D; [done|].
  change (run (op :: ops) s) with (run ops (step s op)).
  apply IH; [by apply wf_step|by apply detached_step].
Qed.

Lemma clear_detaches (id : string) (now : Z) (l : loc) (s : State) :
  wf s → timers s !! id = Some l → detached l (clear id now s).1.
Proof.
  intros W H1. destruct (wf_timers _ W _ _ H1) as [t H2].
  assert (Hlt : (l < nextLoc s)%nat) by (apply (wf_heap _ W); by rewrite H2).
  assert (Hno : ∀ id', delete id (timers s) !! id' ≠ Some l).
  { intros id'. rewrite lookup_delete_Some. intros [Hne H].
    destruct Hne. by eapply wf_inj. }
  destruct (intervalId t) as [h|] eqn:Hi.
  - by rewrite (clear_running _ _ _ _ _ _ H1 H2 Hi).
  - by rewrite (clear_stopped _ _ _ _ _ H1 H2 Hi).
Qed.

Lemma elem_of_Set_delete (fn g : Listener) (ls : list Listener) :
  g ∈ Set_delete fn ls ↔ g ∈ ls ∧ g ≠ fn.
Proof. unfold Set_delete. rewrite list_elem_of_filter. tauto. Qed.

Lemma elem_of_Set_add (fn g : Listener) (ls : list Listener) :
  g ∈ Set_add fn ls ↔ g ∈ ls ∨ g = fn.
Proof.
  unfold Set_add. case_decide.
  - split; [by left|]. by intros [?| ->].
  - rewrite elem_of_app, list_elem_of_singleton. tauto.
Qed.

Lemma unsubscribe_frame (u : Unsubscribe) (s : State) :
  ∃ s', unsubscribe u s = (s', Ok tt)
    ∧ timers s' = timers s ∧ intervals s' = intervals s ∧ out s' = out s
    ∧ (∀ l', l' ≠ u_timer u → heap s' !! l' = heap s !! l')
    ∧ (heap s !! u_timer u = None → heap s' !! u_timer u = None)
    ∧ ∀ t, heap s !! u_timer u = Some t →
        ∃ t', heap s' !! u_timer u = Some t'
          ∧ (∀ g, g ∈ listeners t' ↔ g ∈ listeners t ∧ g ≠ u_fn u)
          ∧ startTs t' = startTs t ∧ elapsedTime t' = elapsedTime t
          ∧ intervalId t' = intervalId t ∧ type t' = type t
          ∧ initialDuration t' = initialDuration t.
Proof.
  destruct (heap s !! u_timer u) as [t|] eqn:E.
  - rewrite (unsubscribe_live _ _ _ E). eexists. split; [done|]. cbn.
    split_and!; try done.
    + intros l' Hne. by rewrite lookup_insert_ne.
    + intros t0 [= <-]. eexists. rewrite lookup_insert_eq. split; [done|].
      cbn. split_and!; try done. intros g. apply elem_of_Set_delete.
  - rewrite (unsubscribe_dangling _ _ E). exists s. by split_and!.
Qed.

(** C7: [subscribe] on a registered id returns a closure over the entry
    object and the callback.  Whenever it is invoked it returns normally,
    removes that callback and no other from the listener set of that
    object, and changes nothing else.  Once the entry has been cleared,
    whatever happens next (the id may be registered again), invoking the
    closure leaves the map and every registered entry as they are, and
    the cleared object is not registered again. *)
Theorem unsubscribe_captures_entry (ops : list Op) (id : string) (fn : Listener)
    (l : loc) :
  timers (run ops init) !! id = Some l →
  ∃ s1 t,
    heap (run ops init) !! l = Some t
    ∧ subscribe id fn (run ops init) = (s1, Ok (mkUnsubscribe l fn))
    ∧ (∃ t1, heap s1 !! l = Some t1
          ∧ ∀ g, g ∈ listeners t1 ↔ g ∈ listeners t ∨ g = fn)
    ∧ (∀ s, ∃ s',
          unsubscribe (mkUnsubscribe l fn) s = (s', Ok tt)
          ∧ timers s' = timers s ∧ intervals s' = intervals s ∧ out s' = out s
          ∧ (∀ l', l' ≠ l → heap s' !! l' = heap s !! l')
          ∧ ∀ t0, heap s !! l = Some t0 →
              ∃ t', heap s' !! l = Some t'
                ∧ (∀ g, g ∈ listeners t' ↔ g ∈ listeners t0 ∧ g ≠ fn)
                ∧ startTs t' = startTs t0 ∧ elapsedTime t' = elapsedTime t0
                ∧ intervalId t' = intervalId t0 ∧ type t' = type t0
                ∧ initialDuration t' = initialDuration t0)
    ∧ ∀ ops2 now ops3,
        timers (run ops2 s1) !! id = Some l →
        ∃ s4,
          unsubscribe (mkUnsubscribe l fn)
            (run ops3 (clear id now (run ops2 s1)).1) = (s4, Ok tt)
          ∧ timers s4 = timers (run ops3 (clear id now (run ops2 s1)).1)
          ∧ (∀ id', timers s4 !! id' ≠ Some l)
          ∧ ∀ id' l', timers s4 !! id' = Some l' →
              heap s4 !! l' = heap (run ops3 (clear id now (run ops2 s1)).1) !! l'.
Proof.
  intros H1. pose proof (wf_reachable ops) as W.
  destruct (wf_timers _ W _ _ H1) as [t H2].
  rewrite (subscribe_present _ fn _ _ _ H1 H2).
  assert (W1 : wf (step (run ops init) (OSubscribe id fn))) by by apply wf_step.
  unfold step, exec in W1. rewrite bind_ret_fst in W1.
  rewrite (subscribe_present _ fn _ _ _ H1 H2) in W1. cbn [fst] in W1.
  eexists _, t. split; [done|]. split; [done|]. split_and!.
  - eexists. cbn. rewrite lookup_insert_eq. split; [done|].
    cbn. intros g. apply elem_of_Set_add.
  - intros s. destruct (unsubscribe_frame (mkUnsubscribe l fn) s)
      as (s' & Hu & Ht & Hi & Ho & Hh & _ & Hl).
    exists s'. by split_and!.
  - intros ops2 now ops3 Hid.
    match goal with |- context [run ops2 ?st] => set (s1 := st) in * end.
    assert (W2 : wf (run ops2 s1)) by by apply wf_run.
    assert (W3 : wf (clear id now (run ops2 s1)).1) by by apply wf_clear.
    pose proof (clear_detaches id now l _ W2 Hid) as D.
    apply (detached_run l ops3 _ W3) in D. destruct D as [_ Hno].
    destruct (unsubscribe_frame (mkUnsubscribe l fn)
                (run ops3 (clear id now (run ops2 s1)).1))
      as (s4 & Hu & Ht & _ & _ & Hh & _).
    exists s4. split; [done|]. split; [done|]. rewrite Ht. split; [done|].
    intros id' l' Hl'. apply Hh. cbn. intros ->. by apply (Hno id').
Qed.

Lemma unsubscribe_captures_entry_witness :
  timers (run hist_C7 init) !! "a" = Some 0%nat
  ∧ ∃ s1 s4,
      subscribe "a" 2%nat (run hist_C7 init) = (s1, Ok (mkUnsubscribe 0%nat 2%nat))
      ∧ timers (run [OStart "a" 1700000000000] s1) !! "a" = Some 0%nat
      ∧ unsubscribe (mkUnsubscribe 0%nat 2%nat)
          (run hist_C7_later
             (clear "a" 1700000004000 (run [OStart "a" 1700000000000] s1)).1)
        = (s4, Ok tt)
      ∧ timers s4 !! "a" = Some 1%nat
      ∧ heap s4 !! 1%nat
        = Some (mkTimer 1700000005000 0 (Some 1%nat) [2%nat] TIMER (Some 3000)).
Proof.
  split; [reflexivity|].
  destruct (unsubscribe_captures_entry hist_C7 "a" 2%nat 0%nat eq_refl)
    as (s1 & t & _ & Hs & _ & _ & Hc).
  injection Hs as <-.
  destruct (Hc [OStart "a" 1700000000000] 1700000004000 hist_C7_later eq_refl)
    as (s4 & Hu & Ht & _ & Hh).
  eexists _, s4. split; [reflexivity|]. split; [reflexivity|].
  split; [exact Hu|].
  assert (Hid : timers s4 !! "a" = Some 1%nat) by (by rewrite Ht).
  split; [exact Hid|]. by rewrite (Hh _ _ Hid).
Defined.

(** ** Creation *)

(** X1: creating under an id that is not registered registers a stopped
    entry with no listeners and calls nothing outside; read at once, a
    stopwatch is worth its initial elapsed time (0 by default) and a
    countdown its duration, or 0 when the duration is negative. *)
Theorem create_then_getValue (s : State) (id : string) (e : option Z) (d now : Z) :
  timers s !! id = None →
  (∃ s', createStopWatch id e s = (s', Ok tt)
      ∧ timers s' !! id = Some (nextLoc s)
      ∧ heap s' !! nextLoc s = Some (mkTimer 0 (default 0 e) None [] STOPWATCH None)
      ∧ out s' = out s ∧ intervals s' = intervals s
      ∧ getValue id now s' = (s', Ok (default 0 e)))
  ∧ (∃ s', createTimer id d s = (s', Ok tt)
      ∧ timers s' !! id = Some (nextLoc s)
      ∧ heap s' !! nextLoc s = Some (mkTimer 0 0 None [] TIMER (Some d))
      ∧ out s' = out s ∧ intervals s' = intervals s
      ∧ getValue id now s' = (s', Ok (Z.max 0 d))).
Proof.
  intros H. split.
  - unfold createStopWatch. rewrite (create_absent _ _ _ H).
    eexists. split; [done|]. split_and!; try done; try apply lookup_insert_eq.
    erewrite getValue_present; [|apply lookup_insert_eq..].
    do 2 f_equal. unfold _computeValue. cbn. lia.
  - unfold createTimer. rewrite (create_absent _ _ _ H).
    eexists. split; [done|]. split_and!; try done; try apply lookup_insert_eq.
    erewrite getValue_present; [|apply lookup_insert_eq..].
    do 2 f_equal. rewrite computeValue_timer by done. cbn. lia.
Qed.

Lemma create_then_getValue_witness :
  timers (run hist_paused init) !! "n" = None
  ∧ ∃ s', createTimer "n" (-40) (run hist_paused init) = (s', Ok tt)
      ∧ getValue "n" 1700000009000 s' = (s', Ok 0).
Proof.
  split; [reflexivity|].
  destruct (create_then_getValue (run hist_paused init) "n" None (-40)
              1700000009000 eq_refl)
    as (_ & s' & Hc & _ & _ & _ & _ & Hg).
  by exists s'.
Defined.

(** X2: creating under a registered id does nothing, whatever the kind
    of the entry that holds the id and whatever the arguments: the entry
    keeps its kind, its times, its listeners and its running state. *)
Theorem create_registered_noop (s : State) (id : string) (l : loc)
    (e : option Z) (d : Z) :
  timers s !! id = Some l →
  createStopWatch id e s = (s, Ok tt) ∧ createTimer id d s = (s, Ok tt).
Proof.
  intros H. split.
  - unfold createStopWatch. apply create_present. by rewrite H.
  - unfold createTimer. apply create_present. by rewrite H.
Qed.

Lemma create_registered_noop_witness :
  timers (run hist_paused init) !! "a" = Some 0%nat
  ∧ createTimer "a" 3000 (run hist_paused init) = (run hist_paused init, Ok tt).
Proof.
  split; [reflexivity|].
  exact (proj2 (create_registered_noop (run hist_paused init) "a" 0%nat
                  None 3000 eq_refl)).
Defined.

(** ** Clearing and stopping twice *)

Lemma clear_unregisters (id : string) (now : Z) (s : State) :
  timers (clear id now s).1 !! id = None.
Proof.
  destruct (stop_frame id now s) as (Ht & Hr & _). unfold clear, bind.
  destruct (stop id now s) as [s1 r]. cbn in Ht, Hr. subst r. cbn.
  apply lookup_delete_eq.
Qed.

(** X3: after [clear], from any state, the id is not registered:
    [start], [subscribe] and [getValue] on it throw the not-found error
    and a second [clear] or a [stop] changes nothing. *)
Theorem clear_then_absent (s : State) (id : string) (now now' : Z) (fn : Listener) :
  ∃ s', clear id now s = (s', Ok tt)
    ∧ timers s' !! id = None
    ∧ start id now' s' = (s', Throw (NotFound id))
    ∧ subscribe id fn s' = (s', Throw (NotFound id))
    ∧ getValue id now' s' = (s', Throw (NotFound id))
    ∧ stop id now' s' = (s', Ok tt)
    ∧ clear id now' s' = (s', Ok tt).
Proof.
  pose proof (clear_unregisters id now s) as H.
  pose proof (clear_ok id now s) as Hr.
  destruct (clear id now s) as [s' r]. cbn in H, Hr. subst r.
  exists s'. split_and!; try done.
  - by apply start_absent.
  - by apply subscribe_absent.
  - by apply getValue_absent.
  - by apply stop_absent.
  - by apply clear_absent.
Qed.

(** X4: [stop] twice is [stop] once: from any state, a second [stop] on
    the same id returns normally and changes nothing, whatever the clock
    reads; no time is added twice. *)
Theorem stop_twice (s : State) (id : string) (now now' : Z) :
  stop id now' (stop id now s).1 = ((stop id now s).1, Ok tt).
Proof.
  destruct (timers_get_cases id s) as [(l & t & H1 & H2 & _)|E].
  - destruct (intervalId t) as [h|] eqn:Hi.
    + rewrite (stop_running _ _ _ _ _ _ H1 H2 Hi). cbn [fst].
      eapply stop_stopped; cbn; [done|apply lookup_insert_eq|done].
    + rewrite (stop_stopped _ _ _ _ _ H1 H2 Hi). cbn [fst].
      by eapply stop_stopped.
  - assert (Hs : stop id now s = (s, Ok tt)) by (unfold stop, bind; by rewrite E).
    rewrite Hs. cbn [fst]. unfold stop, bind. by rewrite E.
Qed.

(** ** Subscribing *)

Lemma Timer_eta (t : Timer) : set_listeners (listeners t) t = t.
Proof. by destruct t. Qed.

Lemma Set_delete_snoc (fn : Listener) (ls : list Listener) :
  fn ∉ ls → Set_delete fn (ls ++ [fn]) = ls.
Proof.
  intros Hn. unfold Set_delete. rewrite filter_app.
  rewrite (filter_cons_False _ fn []) by (intros ?; done).
  rewrite filter_nil, app_nil_r.
  induction ls as [|g ls IH]; [done|].
  apply not_elem_of_cons in Hn as [Hne Hn].
  rewrite filter_cons_True by done. by rewrite IH.
Qed.

(** X5: subscriptions are not counted.  Subscribing a callback that is
    already in the listener set changes nothing, and the closure it
    returns, once invoked, takes the callback out of the set: the earlier
    subscription is gone with it. *)
Theorem subscribe_again (s : State) (id : string) (l : loc) (t : Timer)
    (fn : Listener) :
  timers s !! id = Some l → heap s !! l = Some t → fn ∈ listeners t →
  subscribe id fn s = (s, Ok (mkUnsubscribe l fn))
  ∧ ∃ s' t',
      unsubscribe (mkUnsubscribe l fn) s = (s', Ok tt)
      ∧ heap s' !! l = Some t'
      ∧ listeners t' = Set_delete fn (listeners t)
      ∧ fn ∉ listeners t'.
Proof.
  intros H1 H2 Hin. split.
  - rewrite (subscribe_present _ fn _ _ _ H1 H2).
    unfold Set_add. rewrite decide_True by done.
    rewrite Timer_eta, (insert_id _ _ _ H2). by rewrite state_eta.
  - assert (Hu : heap s !! u_timer (mkUnsubscribe l fn) = Some t) by done.
    rewrite (unsubscribe_live _ _ _ Hu). eexists _, _. split; [done|].
    split; [apply lookup_insert_eq|]. split; [done|].
    cbn. rewrite elem_of_Set_delete. by intros [_ ?].
Qed.

Lemma subscribe_again_witness :
  timers (run hist_ticking init) !! "b" = Some 0%nat
  ∧ heap (run hist_ticking init) !! 0%nat
    = Some (mkTimer 1700000000000 0 (Some 0%nat) [1; 2]%nat TIMER (Some 3000))
  ∧ 1%nat ∈ [1; 2]%nat
  ∧ subscribe "b" 1%nat (run hist_ticking init)
    = (run hist_ticking init, Ok (mkUnsubscribe 0%nat 1%nat)).
Proof.
  split; [reflexivity|]. split; [reflexivity|].
  assert (Hin : 1%nat ∈ listeners
            (mkTimer 1700000000000 0 (Some 0%nat) [1; 2]%nat TIMER (Some 3000)))
    by apply list_elem_of_here.
  split; [exact Hin|].
  exact (proj1 (subscribe_again (run hist_ticking init) "b" 0%nat
                  (mkTimer 1700000000000 0 (Some 0%nat) [1; 2]%nat TIMER (Some 3000))
                  1%nat eq_refl eq_refl Hin)).
Defined.

(** X6: subscribing a callback that is not yet in the set puts it last
    in calling order, and invoking the returned closure right away gives
    back the state there was before the subscription. *)
Theorem subscribe_unsubscribe (s : State) (id : string) (l : loc) (t : Timer)
    (fn : Listener) :
  timers s !! id = Some l → heap s !! l = Some t → fn ∉ listeners t →
  ∃ s1 t1,
    subscribe id fn s = (s1, Ok (mkUnsubscribe l fn))
    ∧ heap s1 !! l = Some t1
    ∧ listeners t1 = listeners t ++ [fn]
    ∧ unsubscribe (mkUnsubscribe l fn) s1 = (s, Ok tt).
Proof.
  intros H1 H2 Hn. rewrite (subscribe_present _ fn _ _ _ H1 H2).
  unfold Set_add. rewrite decide_False by done.
  eexists _, _. split; [done|]. split; [apply lookup_insert_eq|].
  split; [done|].
  erewrite unsubscribe_live; [|apply lookup_insert_eq].
  cbn [u_timer u_fn heap nextLoc timers intervals nextHandle out].
  unfold set_listeners.
  cbn [listeners startTs elapsedTime intervalId type initialDuration].
  rewrite insert_insert_eq, (Set_delete_snoc _ _ Hn).
  replace (mkTimer (startTs t) (elapsedTime t) (intervalId t) (listeners t)
             (type t) (initialDuration t)) with t by (by destruct t).
  rewrite (insert_id _ _ _ H2). by rewrite state_eta.
Qed.

Lemma subscribe_unsubscribe_witness :
  timers (run hist_ticking init) !! "b" = Some 0%nat
  ∧ heap (run hist_ticking init) !! 0%nat
    = Some (mkTimer 1700000000000 0 (Some 0%nat) [1; 2]%nat TIMER (Some 3000))
  ∧ (5%nat ∉ [1; 2]%nat)
  ∧ ∃ s1,
      subscribe "b" 5%nat (run hist_ticking init)
      = (s1, Ok (mkUnsubscribe 0%nat 5%nat))
      ∧ unsubscribe (mkUnsubscribe 0%nat 5%nat) s1
        = (run hist_ticking init, Ok tt).
Proof.
  split; [reflexivity|]. split; [reflexivity|].
  assert (Hn : 5%nat ∉ listeners
            (mkTimer 1700000000000 0 (Some 0%nat) [1; 2]%nat TIMER (Some 3000))).
  { cbn. rewrite !not_elem_of_cons. split_and!; try lia. apply not_elem_of_nil. }
  split; [exact Hn|].
  destruct (subscribe_unsubscribe (run hist_ticking init) "b" 0%nat
              (mkTimer 1700000000000 0 (Some 0%nat) [1; 2]%nat TIMER (Some 3000))
              5%nat eq_refl eq_refl Hn)
    as (s1 & t1 & Hs & _ & _ & Hu).
  by exists s1.
Defined.

(** ** Resuming *)

(** X7: [start] on a stopped entry resumes without a jump.  The
    listeners are called once each, in subscription order, with the value
    the entry had while stopped; a handle that was not armed before is
    armed for the entry with delay 1000; read at the start time the value
    is still the stopped one, and [dt ≥ 0] later it is that value plus
    [dt] for a stopwatch and that value minus [dt], floored at 0, for a
    countdown. *)
Theorem start_resumes (ops : list Op) (id : string) (l : loc) (t : Timer)
    (now : Z) :
  timers (run ops init) !! id = Some l →
  heap (run ops init) !! l = Some t →
  intervalId t = None →
  ∃ s' t' v,
    getValue id now (run ops init) = (run ops init, Ok v)
    ∧ start id now (run ops init) = (s', Ok tt)
    ∧ out s' = out (run ops init) ++ map (λ fn, Call fn v) (listeners t)
               ++ [SetInterval (nextHandle (run ops init)) 1000]
    ∧ intervals (run ops init) !! nextHandle (run ops init) = None
    ∧ intervals s' !! nextHandle (run ops init) = Some (id, l)
    ∧ timers s' = timers (run ops init)
    ∧ heap s' !! l = Some t'
    ∧ startTs t' = now ∧ elapsedTime t' = elapsedTime t
    ∧ intervalId t' = Some (nextHandle (run ops init))
    ∧ listeners t' = listeners t
    ∧ getValue id now s' = (s', Ok v)
    ∧ ∀ dt, 0 ≤ dt →
        getValue id (now + dt) s'
        = (s', Ok match type t with
                  | STOPWATCH => v + dt
                  | TIMER => Z.max 0 (v - dt)
                  end).
Proof.
  intros H1 H2 Hi. pose proof (wf_reachable ops) as W.
  set (s := run ops init) in *.
  assert (Hfresh : intervals s !! nextHandle s = None).
  { destruct (intervals s !! nextHandle s) eqn:E; [|done].
    assert (HS : is_Some (intervals s !! nextHandle s)) by (by rewrite E).
    apply (wf_handles _ W) in HS. lia. }
  assert (Hv : _computeValue now (set_startTs now t) = _computeValue now t).
  { unfold _computeValue. cbn. by rewrite Hi. }
  rewrite (start_stopped _ now _ _ _ H1 H2 Hi), Hv.
  set (t' := set_intervalId (Some (nextHandle s)) (set_startTs now t)).
  match goal with |- context [(?st, Ok tt) = (_, Ok tt)] => set (s' := st) end.
  assert (Hl : heap s' !! l = Some t') by apply lookup_insert_eq.
  assert (Hid : timers s' !! id = Some l) by done.
  assert (Hlater : ∀ dt, 0 ≤ dt →
            _computeValue (now + dt) t'
            = match type t with
              | STOPWATCH => _computeValue now t + dt
              | TIMER => Z.max 0 (_computeValue now t - dt)
              end).
  { intros dt Hdt. destruct (type t) eqn:Ht.
    - rewrite !computeValue_timer by done. cbn. rewrite Hi. lia.
    - rewrite !computeValue_stopwatch by done. cbn. rewrite Hi. lia. }
  exists s', t', (_computeValue now t). split_and!; try done.
  - apply (getValue_present _ _ _ _ _ H1 H2).
  - apply lookup_insert_eq.
  - rewrite (getValue_present _ _ _ _ _ Hid Hl). do 2 f_equal.
    specialize (Hlater 0 ltac:(lia)). rewrite Z.add_0_r in Hlater.
    rewrite Hlater. destruct (type t) eqn:Ht; [|lia].
    rewrite computeValue_timer by done. lia.
  - intros dt Hdt. rewrite (getValue_present _ _ _ _ _ Hid Hl).
    by rewrite (Hlater _ Hdt).
Qed.

Lemma start_resumes_witness :
  timers (run hist_paused init) !! "a" = Some 0%nat
  ∧ heap (run hist_paused init) !! 0%nat
    = Some (mkTimer 1700000000000 2550 None [1%nat] STOPWATCH None)
  ∧ ∃ s',
      start "a" 1700000005000 (run hist_paused init) = (s', Ok tt)
      ∧ out s' = out (run hist_paused init)
                 ++ [Call 1%nat 2550; SetInterval 1%nat 1000]
      ∧ getValue "a" (1700000005000 + 1200) s' = (s', Ok 3750).
Proof.
  split; [reflexivity|]. split; [reflexivity|].
  destruct (start_resumes hist_paused "a" 0%nat
              (mkTimer 1700000000000 2550 None [1%nat] STOPWATCH None)
              1700000005000 eq_refl eq_refl eq_refl)
    as (s' & t' & v & Hg & Hs & Ho & _ & _ & _ & _ & _ & _ & _ & _ & _ & Hl).
  injection Hg as <-.
  exists s'. split; [done|]. split; [exact Ho|].
  exact (Hl 1200 ltac:(lia)).
Defined.

(** ** Firing *)

(** X8: what one firing of an armed callback does is decided by the
    value at that instant.  The entry is removed exactly when it is a
    countdown whose value is at most 0; otherwise every listener is
    called once with the value [getValue] would return, and the map, the
    objects and the armed callbacks stay as they are.  A stopwatch is
    never removed by a firing. *)
Theorem tick_decides (ops : list Op) (h : handle) (id : string) (l : loc)
    (t : Timer) (now now' : Z) :
  intervals (run ops init) !! h = Some (id, l) →
  heap (run ops init) !! l = Some t →
  ∃ s',
    tick h now now' (run ops init) = (s', Ok tt)
    ∧ getValue id now (run ops init) = (run ops init, Ok (_computeValue now t))
    ∧ (timers s' !! id = None ↔ type t = TIMER ∧ _computeValue now t ≤ 0)
    ∧ (type t = STOPWATCH ∨ 0 < _computeValue now t →
         heap s' = heap (run ops init) ∧ timers s' = timers (run ops init)
         ∧ intervals s' = intervals (run ops init)
         ∧ out s' = out (run ops init)
                    ++ map (λ fn, Call fn (_computeValue now t)) (listeners t)).
Proof.
  intros Hh H2. pose proof (wf_reachable ops) as W.
  destruct (wf_intervals _ W _ _ _ Hh) as (H1 & t0 & H2' & H3).
  assert (t0 = t) as -> by congruence.
  assert (Hg := getValue_present id now _ l t H1 H2).
  destruct (type t) eqn:Ht.
  - destruct (Z.le_gt_cases (_computeValue now t) 0) as [Hv|Hv].
    + rewrite (tick_zero _ _ now' _ _ _ _ Hh H1 H2 H3 Ht Hv).
      eexists. split; [done|]. split; [done|]. cbn. split.
      * split; [done|]. intros _. apply lookup_delete_eq.
      * intros [?|?]; [done|lia].
    + rewrite (tick_notify _ now now' _ _ _ _ Hh H2 (or_intror Hv)).
      eexists. split; [done|]. split; [done|]. cbn. split; [|done].
      rewrite H1. split; [done|]. intros [_ ?]. lia.
  - rewrite (tick_notify _ now now' _ _ _ _ Hh H2 (or_introl Ht)).
    eexists. split; [done|]. split; [done|]. cbn. split; [|done].
    rewrite H1. split; [done|]. by intros [? _].
Qed.

Lemma tick_decides_witness :
  intervals (run hist_ticking init) !! 0%nat = Some ("b", 0%nat)
  ∧ heap (run hist_ticking init) !! 0%nat
    = Some (mkTimer 1700000000000 0 (Some 0%nat) [1; 2]%nat TIMER (Some 3000))
  ∧ ∃ s',
      tick 0%nat 1700000002000 1700000002000 (run hist_ticking init) = (s', Ok tt)
      ∧ out s' = out (run hist_ticking init) ++ [Call 1%nat 1000; Call 2%nat 1000]
      ∧ timers s' !! "b" = Some 0%nat.
Proof.
  split; [reflexivity|]. split; [reflexivity|].
  destruct (tick_decides hist_ticking 0%nat "b" 0%nat
              (mkTimer 1700000000000 0 (Some 0%nat) [1; 2]%nat TIMER (Some 3000))
              1700000002000 1700000002000 eq_refl eq_refl)
    as (s' & Hk & _ & _ & Hkeep).
  assert (Hpos : 0 < _computeValue 1700000002000
            (mkTimer 1700000000000 0 (Some 0%nat) [1; 2]%nat TIMER (Some 3000)))
    by (by vm_compute).
  destruct (Hkeep (or_intror Hpos)) as (_ & Ht & _ & Ho).
  exists s'. split; [done|]. split; [exact Ho|]. by rewrite Ht.
Defined.

(** ** Armed callbacks *)

(** X9: no callback is left behind.  In every reachable state a
    callback is armed under a handle exactly when the entry registered
    under its id is running with that handle: stopped entries and
    cleared objects have nothing armed, and a running entry has its own
    callback armed. *)
Theorem armed_iff_running (ops : list Op) (h : handle) (id : string) (l : loc) :
  intervals (run ops init) !! h = Some (id, l)
  ↔ timers (run ops init) !! id = Some l
    ∧ ∃ t, heap (run ops init) !! l = Some t ∧ intervalId t = Some h.
Proof.
  pose proof (wf_reachable ops) as W. split.
  - apply (wf_intervals _ W).
  - intros (H1 & t & H2 & H3).
    destruct (wf_running _ W _ _ _ H2 H3) as [id0 H0].
    destruct (wf_intervals _ W _ _ _ H0) as (H1' & _).
    by rewrite (wf_inj _ W _ _ _ H1 H1').
Qed.

(** ** Pausing and resuming, repeatedly *)

Lemma start_stop_round (s : State) (id : string) (l : loc) (t : Timer) (a b : Z) :
  timers s !! id = Some l → heap s !! l = Some t → intervalId t = None →
  let t' := set_intervalId None
              (set_elapsedTime (elapsedTime t + (b - a)) (set_startTs a t)) in
  timers (run [OStart id a; OStop id b] s) = timers s
  ∧ heap (run [OStart id a; OStop id b] s) !! l = Some t'.
Proof.
  intros H1 H2 Hi. cbn [run foldl]. unfold step, exec.
  rewrite !bind_ret_fst. rewrite (start_stopped _ a _ _ _ H1 H2 Hi). cbn [fst].
  erewrite stop_running; [|cbn; done|cbn; apply lookup_insert_eq|cbn; done].
  cbn. by rewrite lookup_insert_eq.
Qed.

(** X10: rounds of [start] and [stop] add up.  On a stopped entry, after
    any number of rounds the entry is stopped again, still registered,
    with the same kind, duration and listeners, and its accumulated time
    has grown by the sum of [stop time - start time] over the rounds; a
    stopwatch then reads exactly that accumulated time whatever the
    clock. *)
Theorem cycles_accumulate (ps : list (Z * Z)) (s : State) (id : string)
    (l : loc) (t : Timer) :
  timers s !! id = Some l → heap s !! l = Some t → intervalId t = None →
  ∃ t',
    timers (run (cycles id ps) s) !! id = Some l
    ∧ heap (run (cycles id ps) s) !! l = Some t'
    ∧ intervalId t' = None
    ∧ elapsedTime t' = elapsedTime t + spans ps
    ∧ type t' = type t ∧ initialDuration t' = initialDuration t
    ∧ listeners t' = listeners t
    ∧ ∀ now, getValue id now (run (cycles id ps) s)
             = (run (cycles id ps) s, Ok (_computeValue now t'))
             ∧ (type t = STOPWATCH →
                _computeValue now t' = elapsedTime t + spans ps).
Proof.
  revert s t. induction ps as [|[a b] ps IH]; intros s t H1 H2 Hi.
  - assert (Hz : spans [] = 0) by done.
    exists t. change (run (cycles id []) s) with s. split_and!; try done.
    + lia.
    + intros now. split; [apply (getValue_present _ _ _ _ _ H1 H2)|].
      intros Ht. rewrite (computeValue_stopwatch _ _ Ht), Hi. lia.
  - change (cycles id ((a, b) :: ps))
      with ([OStart id a; OStop id b] ++ cycles id ps).
    rewrite run_app.
    destruct (start_stop_round s id l t a b H1 H2 Hi) as [Hts Hh].
    destruct (IH _ _ (eq_trans (f_equal (.!! id) Hts) H1) Hh eq_refl)
      as (t' & K1 & K2 & K3 & K4 & K5 & K6 & K7 & K8).
    assert (Hsp : spans ((a, b) :: ps) = (b - a) + spans ps) by done.
    exists t'. cbn in K4, K5, K6, K7. split_and!; try done.
    + lia.
    + intros now. destruct (K8 now) as [G1 G2]. split; [done|].
      intros Ht. rewrite (computeValue_stopwatch _ _ (eq_trans K5 Ht)), K3.
      lia.
Qed.

Lemma cycles_accumulate_witness :
  timers (run hist_fresh init) !! "a" = Some 0%nat
  ∧ heap (run hist_fresh init) !! 0%nat
    = Some (mkTimer 0 250 None [1%nat] STOPWATCH None)
  ∧ getValue "a" 1700000099000
      (run (cycles "a" [(1700000000000, 1700000002300);
                        (1700000005000, 1700000005700)])
           (run hist_fresh init))
    = (run (cycles "a" [(1700000000000, 1700000002300);
                        (1700000005000, 1700000005700)])
           (run hist_fresh init),
       Ok 3250).
Proof.
  split; [reflexivity|]. split; [reflexivity|].
  destruct (cycles_accumulate
              [(1700000000000, 1700000002300); (1700000005000, 1700000005700)]
              (run hist_fresh init) "a" 0%nat
              (mkTimer 0 250 None [1%nat] STOPWATCH None)
              eq_refl eq_refl eq_refl)
    as (t' & _ & _ & _ & _ & _ & _ & _ & Hg).
  destruct (Hg 1700000099000) as [G1 G2].
  rewrite G1. by rewrite (G2 eq_refl).
Defined.

(** ** What one step does to an object *)

Lemma evolved_same (hp : gmap nat Timer) (l : loc) (t' : Timer) :
  hp !! l = Some t' → evolved (hp !! l) t'.
Proof. intros ->. cbn. split_and!; try done. by left. Qed.

Lemma evolved_update (hp : gmap nat Timer) (l0 l : loc) (t t1 t' : Timer) :
  hp !! l0 = Some t → evolved (Some t) t1 →
  <[l0 := t1]> hp !! l = Some t' → evolved (hp !! l) t'.
Proof.
  intros H0 He. rewrite lookup_insert_Some. intros [[<- <-]|[_ H]].
  - by rewrite H0.
  - by apply evolved_same.
Qed.

Lemma evolved_alloc (hp : gmap nat Timer) (l0 l : loc) (t0 t' : Timer) :
  hp !! l0 = None → evolved None t0 →
  <[l0 := t0]> hp !! l = Some t' → evolved (hp !! l) t'.
Proof.
  intros H0 He. rewrite lookup_insert_Some. intros [[<- <-]|[_ H]].
  - by rewrite H0.
  - by apply evolved_same.
Qed.

Lemma step_object (s : State) (op : Op) (l : loc) (t' : Timer) :
  wf s → heap (step s op) !! l = Some t' → evolved (heap s !! l) t'.
Proof.
  intros W. pose proof (fresh_loc s W) as Hfresh. unfold step.
  destruct op as [id el|id d|id now|id now|id now|id fn|u|id now|h now now'];
    unfold exec; rewrite bind_ret_fst.
  - unfold createStopWatch. destruct (timers s !! id) as [l0|] eqn:E.
    + rewrite create_present by (by rewrite E). apply evolved_same.
    + rewrite (create_absent _ _ _ E). by apply evolved_alloc.
  - unfold createTimer. destruct (timers s !! id) as [l0|] eqn:E.
    + rewrite create_present by (by rewrite E). apply evolved_same.
    + rewrite (create_absent _ _ _ E). apply evolved_alloc; [done|].
      cbn. split_and!; try done.
  - destruct (timers_get_cases id s) as [(l0 & t & H1 & H2 & E)|E].
    + destruct (intervalId t) as [h|] eqn:Hi.
      * rewrite (start_running _ _ _ _ _ _ H1 H2 Hi). apply evolved_same.
      * rewrite (start_stopped _ _ _ _ _ H1 H2 Hi).
        apply (evolved_update _ _ _ t); [done|]. cbn. split_and!; try done. by left.
    + unfold start, bind. rewrite E. apply evolved_same.
  - destruct (timers_get_cases id s) as [(l0 & t & H1 & H2 & E)|E].
    + destruct (intervalId t) as [h|] eqn:Hi.
      * rewrite (stop_running _ _ _ _ _ _ H1 H2 Hi).
        apply (evolved_update _ _ _ t); [done|]. cbn. split_and!; try done.
        right. rewrite Hi. by split.
      * rewrite (stop_stopped _ _ _ _ _ H1 H2 Hi). apply evolved_same.
    + unfold stop, bind. rewrite E. apply evolved_same.
  - destruct (timers_get_cases id s) as [(l0 & t & H1 & H2 & E)|E].
    + destruct (intervalId t) as [h|] eqn:Hi.
      * rewrite (clear_running _ _ _ _ _ _ H1 H2 Hi).
        apply (evolved_update _ _ _ t); [done|]. cbn. split_and!; try done.
        right. rewrite Hi. by split.
      * rewrite (clear_stopped _ _ _ _ _ H1 H2 Hi). apply evolved_same.
    + unfold clear, stop, bind. rewrite E. apply evolved_same.
  - destruct (timers_get_cases id s) as [(l0 & t & H1 & H2 & E)|E].
    + rewrite (subscribe_present _ _ _ _ _ H1 H2).
      apply (evolved_update _ _ _ t); [done|]. cbn. split_and!; try done. by left.
    + unfold subscribe, bind. rewrite E. apply evolved_same.
  - destruct (heap s !! u_timer u) as [t|] eqn:E.
    + rewrite (unsubscribe_live _ _ _ E).
      apply (evolved_update _ _ _ t); [done|]. cbn. split_and!; try done. by left.
    + rewrite (unsubscribe_dangling _ _ E). apply evolved_same.
  - destruct (timers_get_cases id s) as [(l0 & t & H1 & H2 & E)|E].
    + rewrite (getValue_present _ _ _ _ _ H1 H2). apply evolved_same.
    + unfold getValue, bind. rewrite E. apply evolved_same.
  - destruct (intervals s !! h) as [[id l0]|] eqn:Hh.
    + destruct (wf_intervals _ W _ _ _ Hh) as (H1 & t & H2 & H3).
      destruct (type t) eqn:Ht.
      * destruct (Z.le_gt_cases (_computeValue now t) 0) as [Hv|Hv].
        -- rewrite (tick_zero _ _ now' _ _ _ _ Hh H1 H2 H3 Ht Hv).
           apply (evolved_update _ _ _ t); [done|]. cbn. split_and!; try done.
           right. rewrite H3. by split.
        -- rewrite (tick_notify _ now now' _ _ _ _ Hh H2 (or_intror Hv)).
           apply evolved_same.
      * rewrite (tick_notify _ now now' _ _ _ _ Hh H2 (or_introl Ht)).
        apply evolved_same.
    + rewrite (tick_unarmed _ _ _ _ Hh). apply evolved_same.
Qed.

(** ** Kind, duration and accumulated time along a history *)

Lemma kind_fixed_run (ops : list Op) (s : State) (l : loc) (t t' : Timer) :
  wf s → heap s !! l = Some t → heap (run ops s) !! l = Some t' →
  type t' = type t ∧ initialDuration t' = initialDuration t.
Proof.
  revert s t. induction ops as [|op ops IH]; intros s t W H H'.
  - cbn in H'. by assert (t' = t) as -> by congruence.
  - change (run (op :: ops) s) with (run ops (step s op)) in H'.
    destruct (step_cases s op W) as (_ & _ & Hdom & _).
    destruct (Hdom l) as [t1 H1]; [by rewrite H|].
    pose proof (step_object s op l t1 W H1) as He. rewrite H in He.
    destruct He as (K1 & K2 & _).
    destruct (IH _ _ (wf_step _ op W) H1 H') as [K3 K4]. split; congruence.
Qed.

(** X11: the kind of an entry and the duration of a countdown are set
    when the entry is created and never change afterwards, whatever is
    done to the registry. *)
Theorem kind_fixed (ops1 ops2 : list Op) (l : loc) (t t' : Timer) :
  heap (run ops1 init) !! l = Some t →
  heap (run (ops1 ++ ops2) init) !! l = Some t' →
  type t' = type t ∧ initialDuration t' = initialDuration t.
Proof.
  rewrite run_app. apply kind_fixed_run, wf_reachable.
Qed.

Lemma kind_fixed_witness :
  heap (run hist_fresh init) !! 0%nat
  = Some (mkTimer 0 250 None [1%nat] STOPWATCH None)
  ∧ heap (run (hist_fresh ++ [OStart "a" 1700000000000; OCreateTimer "a" 9;
                              OStop "a" 1700000000800]) init) !! 0%nat
    = Some (mkTimer 1700000000000 1050 None [1%nat] STOPWATCH None)
  ∧ type (mkTimer 1700000000000 1050 None [1%nat] STOPWATCH None)
    = type (mkTimer 0 250 None [1%nat] STOPWATCH None).
Proof.
  split; [reflexivity|]. split; [reflexivity|].
  exact (proj1 (kind_fixed hist_fresh
                  [OStart "a" 1700000000000; OCreateTimer "a" 9;
                   OStop "a" 1700000000800]
                  0%nat _ _ eq_refl eq_refl)).
Defined.

(** X12: in every reachable state a stopwatch carries no duration and a
    countdown carries one, so the fallback duration 0 of the value
    computation is never used: a countdown of duration [d] is worth
    [max 0 (d - total)]. *)
Theorem countdown_has_duration (ops : list Op) (l : loc) (t : Timer) :
  heap (run ops init) !! l = Some t →
  match type t with
  | STOPWATCH => initialDuration t = None
  | TIMER =>
      ∃ d, initialDuration t = Some d
        ∧ ∀ now, _computeValue now t
                 = Z.max 0 (d - (elapsedTime t
                                 + match intervalId t with
                                   | Some _ => now - startTs t
                                   | None => 0
                                   end))
  end.
Proof.
  revert l t. induction ops as [|op ops IH] using rev_ind; intros l t H.
  - cbn in H. by rewrite ?lookup_empty in H.
  - rewrite run_snoc in H.
    pose proof (step_object _ op l t (wf_reachable ops) H) as He.
    assert (Hd : match type t with
                 | STOPWATCH => initialDuration t = None
                 | TIMER => is_Some (initialDuration t)
                 end).
    { destruct (heap (run ops init) !! l) as [t0|] eqn:E.
      - destruct He as (K1 & K2 & _). specialize (IH _ _ E).
        rewrite K1, K2. destruct (type t0); [|done].
        destruct IH as (d & -> & _). by exists d.
      - destruct He as (_ & _ & _ & K). by destruct (type t); [destruct K|]. }
    destruct (type t) eqn:Ht; [|done]. destruct Hd as [d Hd]. exists d.
    split; [done|]. intros now. rewrite (computeValue_timer _ _ Ht), Hd. done.
Qed.

Lemma countdown_has_duration_witness :
  heap (run hist_ticking init) !! 0%nat
  = Some (mkTimer 1700000000000 0 (Some 0%nat) [1; 2]%nat TIMER (Some 3000))
  ∧ ∃ d, Some 3000 = Some d
      ∧ _computeValue 1700000001250
          (mkTimer 1700000000000 0 (Some 0%nat) [1; 2]%nat TIMER (Some 3000))
        = Z.max 0 (d - (0 + (1700000001250 - 1700000000000))).
Proof.
  split; [reflexivity|].
  destruct (countdown_has_duration hist_ticking 0%nat
              (mkTimer 1700000000000 0 (Some 0%nat) [1; 2]%nat TIMER (Some 3000))
              eq_refl) as (d & Hd & Hv).
  exists d. split; [exact Hd|]. exact (Hv 1700000001250).
Defined.

Lemma step_elapsed (s : State) (op : Op) (l : loc) (t t' : Timer) :
  wf s → heap s !! l = Some t → heap (step s op) !! l = Some t' →
  elapsedTime t' = elapsedTime t
  ∨ (is_Some (intervalId t) ∧ intervalId t' = None
     ∧ ∃ now, elapsedTime t' = elapsedTime t + (now - startTs t)
         ∧ ((∃ id, op = OStop id now ∧ timers s !! id = Some l)
            ∨ (∃ id, op = OClear id now ∧ timers s !! id = Some l)
            ∨ (∃ h n id, op = OTick h n now ∧ intervals s !! h = Some (id, l)))).
Proof.
  intros W Hl. unfold step.
  assert (Hsame : heap s !! l = Some t' → elapsedTime t' = elapsedTime t)
    by (intros ?; congruence).
  destruct op as [id el|id d|id now|id now|id now|id fn|u|id now|h now now'];
    unfold exec; rewrite bind_ret_fst.
  - unfold createStopWatch. destruct (timers s !! id) as [l0|] eqn:E.
    + rewrite create_present by (by rewrite E). intros H. left. by apply Hsame.
    + rewrite (create_absent _ _ _ E). cbn. rewrite lookup_insert_Some.
      intros [[<- _]|[_ H]]; [|left; by apply Hsame].
      rewrite (fresh_loc s W) in Hl. done.
  - unfold createTimer. destruct (timers s !! id) as [l0|] eqn:E.
    + rewrite create_present by (by rewrite E). intros H. left. by apply Hsame.
    + rewrite (create_absent _ _ _ E). cbn. rewrite lookup_insert_Some.
      intros [[<- _]|[_ H]]; [|left; by apply Hsame].
      rewrite (fresh_loc s W) in Hl. done.
  - destruct (timers_get_cases id s) as [(l0 & t0 & H1 & H2 & E)|E].
    + destruct (intervalId t0) as [h|] eqn:Hi.
      * rewrite (start_running _ _ _ _ _ _ H1 H2 Hi). intros H. left. by apply Hsame.
      * rewrite (start_stopped _ _ _ _ _ H1 H2 Hi). cbn. rewrite lookup_insert_Some.
        intros [[<- <-]|[_ H]]; [|left; by apply Hsame].
        left. cbn. congruence.
    + unfold start, bind. rewrite E. intros H. left. by apply Hsame.
  - destruct (timers_get_cases id s) as [(l0 & t0 & H1 & H2 & E)|E].
    + destruct (intervalId t0) as [h|] eqn:Hi.
      * rewrite (stop_running _ _ _ _ _ _ H1 H2 Hi). cbn. rewrite lookup_insert_Some.
        intros [[<- <-]|[_ H]]; [|left; by apply Hsame].
        assert (t0 = t) as -> by congruence. right. rewrite Hi.
        split; [done|]. split; [done|]. exists now. split; [done|]. left. eauto.
      * rewrite (stop_stopped _ _ _ _ _ H1 H2 Hi). intros H. left. by apply Hsame.
    + unfold stop, bind. rewrite E. intros H. left. by apply Hsame.
  - destruct (timers_get_cases id s) as [(l0 & t0 & H1 & H2 & E)|E].
    + destruct (intervalId t0) as [h|] eqn:Hi.
      * rewrite (clear_running _ _ _ _ _ _ H1 H2 Hi). cbn. rewrite lookup_insert_Some.
        intros [[<- <-]|[_ H]]; [|left; by apply Hsame].
        assert (t0 = t) as -> by congruence. right. rewrite Hi.
        split; [done|]. split; [done|]. exists now. split; [done|].
        right. left. eauto.
      * rewrite (clear_stopped _ _ _ _ _ H1 H2 Hi). intros H. left. by apply Hsame.
    + unfold clear, stop, bind. rewrite E. intros H. left. by apply Hsame.
  - destruct (timers_get_cases id s) as [(l0 & t0 & H1 & H2 & E)|E].
    + rewrite (subscribe_present _ _ _ _ _ H1 H2). cbn. rewrite lookup_insert_Some.
      intros [[<- <-]|[_ H]]; [|left; by apply Hsame]. left. cbn. congruence.
    + unfold subscribe, bind. rewrite E. intros H. left. by apply Hsame.
  - destruct (heap s !! u_timer u) as [t0|] eqn:E.
    + rewrite (unsubscribe_live _ _ _ E). cbn. rewrite lookup_insert_Some.
      intros [[<- <-]|[_ H]]; [|left; by apply Hsame]. left. cbn. congruence.
    + rewrite (unsubscribe_dangling _ _ E). intros H. left. by apply Hsame.
  - destruct (timers_get_cases id s) as [(l0 & t0 & H1 & H2 & E)|E].
    + rewrite (getValue_present _ _ _ _ _ H1 H2). intros H. left. by apply Hsame.
    + unfold getValue, bind. rewrite E. intros H. left. by apply Hsame.
  - destruct (intervals s !! h) as [[id l0]|] eqn:Hh.
    + destruct (wf_intervals _ W _ _ _ Hh) as (H1 & t0 & H2 & H3).
      destruct (type t0) eqn:Ht.
      * destruct (Z.le_gt_cases (_computeValue now t0) 0) as [Hv|Hv].
        -- rewrite (tick_zero _ _ now' _ _ _ _ Hh H1 H2 H3 Ht Hv). cbn.
           rewrite lookup_insert_Some.
           intros [[<- <-]|[_ H]]; [|left; by apply Hsame].
           assert (t0 = t) as -> by congruence. right. rewrite H3.
           split; [done|]. split; [done|]. exists now'. split; [done|].
           right. right. eauto.
        -- rewrite (tick_notify _ now now' _ _ _ _ Hh H2 (or_intror Hv)).
           intros H. left. by apply Hsame.
      * rewrite (tick_notify _ now now' _ _ _ _ Hh H2 (or_introl Ht)).
        intros H. left. by apply Hsame.
    + rewrite (tick_unarmed _ _ _ _ Hh). intros H. left. by apply Hsame.
Qed.

(** X13: the accumulated time of an entry changes in one way only: by
    the step that takes it from running to stopped, which is a [stop] or
    a [clear] on its id or the firing of its own callback that removes
    it as an expired countdown; what is added is the clock reading taken
    by that very operation minus the time stamp of the start.  Starting,
    subscribing, reading, creating and firings that only notify leave
    it alone. *)
Theorem elapsed_changes_on_stop (ops : list Op) (op : Op) (l : loc) (t t' : Timer) :
  heap (run ops init) !! l = Some t →
  heap (run (ops ++ [op]) init) !! l = Some t' →
  elapsedTime t' ≠ elapsedTime t →
  is_Some (intervalId t) ∧ intervalId t' = None
  ∧ ∃ now, elapsedTime t' = elapsedTime t + (now - startTs t)
      ∧ ((∃ id, op = OStop id now ∧ timers (run ops init) !! id = Some l)
         ∨ (∃ id, op = OClear id now ∧ timers (run ops init) !! id = Some l)
         ∨ (∃ h n id, op = OTick h n now
                      ∧ intervals (run ops init) !! h = Some (id, l))).
Proof.
  intros H H' Hne. rewrite run_snoc in H'.
  destruct (step_elapsed _ op l t t' (wf_reachable ops) H H') as [?|?]; done.
Qed.

Lemma elapsed_changes_on_stop_witness :
  heap (run hist_ticking init) !! 0%nat
  = Some (mkTimer 1700000000000 0 (Some 0%nat) [1; 2]%nat TIMER (Some 3000))
  ∧ heap (run (hist_ticking ++ [OStop "b" 1700000001400]) init) !! 0%nat
    = Some (mkTimer 1700000000000 1400 None [1; 2]%nat TIMER (Some 3000))
  ∧ 1400 ≠ 0
  ∧ ∃ now, 1400 = 0 + (now - 1700000000000)
      ∧ ((∃ id, OStop "b" 1700000001400 = OStop id now
                ∧ timers (run hist_ticking init) !! id = Some 0%nat)
         ∨ (∃ id, OStop "b" 1700000001400 = OClear id now
                  ∧ timers (run hist_ticking init) !! id = Some 0%nat)
         ∨ (∃ h n id, OStop "b" 1700000001400 = OTick h n now
                      ∧ intervals (run hist_ticking init) !! h = Some (id, 0%nat))).
Proof.
  split; [reflexivity|]. split; [reflexivity|].
  assert (Hne : elapsedTime (mkTimer 1700000000000 1400 None [1; 2]%nat TIMER (Some 3000))
                ≠ elapsedTime (mkTimer 1700000000000 0 (Some 0%nat) [1; 2]%nat TIMER (Some 3000)))
    by (cbn; lia).
  split; [exact Hne|].
  exact (proj2 (proj2 (elapsed_changes_on_stop hist_ticking
                         (OStop "b" 1700000001400) 0%nat _ _
                         eq_refl eq_refl Hne))).
Defined.

(** ** Independence of entries *)

Lemma armed_insert_other (iv : gmap nat (string * nat)) (h0 h : handle)
    (id id' : string) (l0 l' : loc) :
  iv !! h0 = None → id ≠ id' →
  <[h0 := (id, l0)]> iv !! h = Some (id', l') ↔ iv !! h = Some (id', l').
Proof.
  intros Hf Hne. rewrite lookup_insert_Some. split.
  - intros [[_ [= ? _]]|[_ H]]; [done|done].
  - intros H. right. split; [|done]. intros ->. congruence.
Qed.

Lemma armed_delete_other (s : State) (h0 h : handle) (id' : string)
    (l0 l' : loc) (t : Timer) :
  wf s → heap s !! l0 = Some t → intervalId t = Some h0 → l0 ≠ l' →
  delete h0 (intervals s) !! h = Some (id', l') ↔ intervals s !! h = Some (id', l').
Proof.
  intros W H2 H3 Hne. rewrite lookup_delete_Some. split; [by intros [_ ?]|].
  intros H. split; [|done]. intros ->.
  destruct (wf_running _ W _ _ _ H2 H3) as [id0 H0]. congruence.
Qed.

(** X14: entries do not interfere.  In every reachable state, an
    operation on one id, or the firing of the callback of one id, leaves
    the entry registered under any other id as it is: same object, same
    fields, same armed callback, same value. *)
Theorem other_entry_untouched (ops : list Op) (op : Op) (id id' : string)
    (l' : loc) :
  acts_on (run ops init) op = Some id → id ≠ id' →
  timers (run ops init) !! id' = Some l' →
  timers (run (ops ++ [op]) init) !! id' = Some l'
  ∧ heap (run (ops ++ [op]) init) !! l' = heap (run ops init) !! l'
  ∧ (∀ h, intervals (run (ops ++ [op]) init) !! h = Some (id', l')
          ↔ intervals (run ops init) !! h = Some (id', l'))
  ∧ ∀ now, (getValue id' now (run (ops ++ [op]) init)).2
           = (getValue id' now (run ops init)).2.
Proof.
  intros Ha Hne H'. pose proof (wf_reachable ops) as W.
  rewrite run_snoc. set (s := run ops init) in *.
  destruct (wf_timers _ W _ _ H') as [t' Ht'].
  pose proof (fresh_loc s W) as Hfresh.
  assert (Hnl : nextLoc s ≠ l') by (intros <-; congruence).
  assert (Hobj : ∀ l0, timers s !! id = Some l0 → l0 ≠ l').
  { intros l0 H0 ->. apply Hne. by eapply wf_inj. }
  assert (Hfh : intervals s !! nextHandle s = None).
  { destruct (intervals s !! nextHandle s) eqn:E; [|done].
    assert (HS : is_Some (intervals s !! nextHandle s)) by (by rewrite E).
    apply (wf_handles _ W) in HS. lia. }
  enough (Hmain : timers (step s op) !! id' = Some l'
                  ∧ heap (step s op) !! l' = heap s !! l'
                  ∧ ∀ h, intervals (step s op) !! h = Some (id', l')
                         ↔ intervals s !! h = Some (id', l')).
  { destruct Hmain as (K1 & K2 & K3). split_and!; try done.
    intros now. rewrite (getValue_present _ _ _ _ _ H' Ht').
    rewrite Ht' in K2. by rewrite (getValue_present _ _ _ _ _ K1 K2). }
  unfold step.
  destruct op as [i el|i d|i now|i now|i now|i fn|u|i now|h0 now now'];
    cbn [acts_on] in Ha; try (injection Ha as ->); try done;
    unfold exec; rewrite bind_ret_fst.
  - unfold createStopWatch. destruct (timers s !! id) as [l0|] eqn:E.
    + by rewrite create_present by (by rewrite E).
    + rewrite (create_absent _ _ _ E). cbn.
      by rewrite !lookup_insert_ne by done.
  - unfold createTimer. destruct (timers s !! id) as [l0|] eqn:E.
    + by rewrite create_present by (by rewrite E).
    + rewrite (create_absent _ _ _ E). cbn.
      by rewrite !lookup_insert_ne by done.
  - destruct (timers_get_cases id s) as [(l0 & t & H1 & H2 & E)|E].
    + destruct (intervalId t) as [h|] eqn:Hi.
      * by rewrite (start_running _ _ _ _ _ _ H1 H2 Hi).
      * rewrite (start_stopped _ _ _ _ _ H1 H2 Hi). cbn.
        rewrite lookup_insert_ne by by apply Hobj. split_and!; try done.
        intros h. by apply armed_insert_other.
    + unfold start, bind. by rewrite E.
  - destruct (timers_get_cases id s) as [(l0 & t & H1 & H2 & E)|E].
    + destruct (intervalId t) as [h|] eqn:Hi.
      * rewrite (stop_running _ _ _ _ _ _ H1 H2 Hi). cbn.
        rewrite lookup_insert_ne by by apply Hobj. split_and!; try done.
        intros h1. apply (armed_delete_other s h h1 id' l0 l' t); try done.
        by apply Hobj.
      * by rewrite (stop_stopped _ _ _ _ _ H1 H2 Hi).
    + unfold stop, bind. by rewrite E.
  - destruct (timers_get_cases id s) as [(l0 & t & H1 & H2 & E)|E].
    + destruct (intervalId t) as [h|] eqn:Hi.
      * rewrite (clear_running _ _ _ _ _ _ H1 H2 Hi). cbn.
        rewrite lookup_insert_ne by by apply Hobj.
        rewrite lookup_delete_ne by done. split_and!; try done.
        intros h1. apply (armed_delete_other s h h1 id' l0 l' t); try done.
        by apply Hobj.
      * rewrite (clear_stopped _ _ _ _ _ H1 H2 Hi). cbn.
        by rewrite lookup_delete_ne by done.
    + unfold clear, stop, bind. rewrite E. cbn.
      destruct (timers s !! id) eqn:E1.
      * by rewrite lookup_delete_ne by done.
      * by rewrite lookup_delete_ne by done.
  - destruct (timers_get_cases id s) as [(l0 & t & H1 & H2 & E)|E].
    + rewrite (subscribe_present _ _ _ _ _ H1 H2). cbn.
      by rewrite lookup_insert_ne by by apply Hobj.
    + unfold subscribe, bind. by rewrite E.
  - destruct (timers_get_cases id s) as [(l0 & t & H1 & H2 & E)|E].
    + by rewrite (getValue_present _ _ _ _ _ H1 H2).
    + unfold getValue, bind. by rewrite E.
  - destruct (intervals s !! h0) as [[i l0]|] eqn:Hh; [|done].
    cbn in Ha. injection Ha as ->.
    destruct (wf_intervals _ W _ _ _ Hh) as (H1 & t & H2 & H3).
    destruct (type t) eqn:Ht.
    + destruct (Z.le_gt_cases (_computeValue now t) 0) as [Hv|Hv].
      * rewrite (tick_zero _ _ now' _ _ _ _ Hh H1 H2 H3 Ht Hv). cbn.
        rewrite lookup_insert_ne by by apply Hobj.
        rewrite lookup_delete_ne by done. split_and!; try done.
        intros h1. apply (armed_delete_other s h0 h1 id' l0 l' t); try done.
        by apply Hobj.
      * by rewrite (tick_notify _ now now' _ _ _ _ Hh H2 (or_intror Hv)).
    + by rewrite (tick_notify _ now now' _ _ _ _ Hh H2 (or_introl Ht)).
Qed.

Lemma other_entry_untouched_witness :
  acts_on (run hist_two init) (OClear "b" 1700000000900) = Some "b"
  ∧ "b" ≠ "a"
  ∧ timers (run hist_two init) !! "a" = Some 0%nat
  ∧ timers (run (hist_two ++ [OClear "b" 1700000000900]) init) !! "a" = Some 0%nat
  ∧ heap (run (hist_two ++ [OClear "b" 1700000000900]) init) !! 0%nat
    = heap (run hist_two init) !! 0%nat.
Proof.
  split; [reflexivity|].
  assert (Hne : "b" ≠ "a") by discriminate.
  split; [exact Hne|]. split; [reflexivity|].
  destruct (other_entry_untouched hist_two (OClear "b" 1700000000900)
              "b" "a" 0%nat eq_refl Hne eq_refl) as (K1 & K2 & _).
  by split.
Defined.

(** ** Registering an id again *)

(** X15: [clear] then a creation under the same id starts from scratch,
    from any state: the id is registered to a newly allocated object that
    is stopped, has no listener and no accumulated time beyond the
    initial one; nothing of the cleared entry is carried over. *)
Theorem clear_then_create (s : State) (id : string) (now now' : Z)
    (e : option Z) (d : Z) :
  (∃ s', (clear id now ;;; createStopWatch id e) s = (s', Ok tt)
      ∧ timers s' !! id = Some (nextLoc s)
      ∧ heap s' !! nextLoc s = Some (mkTimer 0 (default 0 e) None [] STOPWATCH None)
      ∧ getValue id now' s' = (s', Ok (default 0 e)))
  ∧ (∃ s', (clear id now ;;; createTimer id d) s = (s', Ok tt)
      ∧ timers s' !! id = Some (nextLoc s)
      ∧ heap s' !! nextLoc s = Some (mkTimer 0 0 None [] TIMER (Some d))
      ∧ getValue id now' s' = (s', Ok (Z.max 0 d))).
Proof.
  pose proof (clear_unregisters id now s) as H.
  pose proof (clear_ok id now s) as Hr.
  assert (Hn : nextLoc (clear id now s).1 = nextLoc s).
  { destruct (timers_get_cases id s) as [(l & t & H1 & H2 & _)|E].
    - destruct (intervalId t) as [h|] eqn:Hi.
      + by rewrite (clear_running _ _ _ _ _ _ H1 H2 Hi).
      + by rewrite (clear_stopped _ _ _ _ _ H1 H2 Hi).
    - unfold clear, stop, bind. by rewrite E. }
  unfold bind at 1 2. destruct (clear id now s) as [s1 r]. cbn in H, Hr, Hn.
  subst r. rewrite <- Hn. split.
  - unfold createStopWatch. rewrite (create_absent _ _ _ H).
    eexists. split; [done|]. split_and!; try apply lookup_insert_eq.
    erewrite getValue_present; [|apply lookup_insert_eq..].
    do 2 f_equal. unfold _computeValue. cbn. lia.
  - unfold createTimer. rewrite (create_absent _ _ _ H).
    eexists. split; [done|]. split_and!; try apply lookup_insert_eq.
    erewrite getValue_present; [|apply lookup_insert_eq..].
    do 2 f_equal. rewrite computeValue_timer by done. cbn. lia.
Qed.

(** ** A countdown from start to expiry *)

(** X16: a stopped countdown that is worth [v] when started at [now] and
    whose callback first fires [dt ≥ 0] later is removed by that firing
    exactly when [v ≤ dt], after its listeners were called with 0;
    before that the firing calls the listeners with [v - dt] and keeps
    the entry registered and armed. *)
Theorem countdown_expiry (s : State) (id : string) (l : loc) (t : Timer)
    (now dt now' : Z) :
  timers s !! id = Some l → heap s !! l = Some t →
  type t = TIMER → intervalId t = None → 0 ≤ dt →
  ∃ s1 s2,
    start id now s = (s1, Ok tt)
    ∧ tick (nextHandle s) (now + dt) now' s1 = (s2, Ok tt)
    ∧ (_computeValue now t ≤ dt →
         timers s2 !! id = None ∧ intervals s2 !! nextHandle s = None
         ∧ out s2 = out s1 ++ map (λ fn, Call fn 0) (listeners t)
                          ++ [ClearInterval (nextHandle s)])
    ∧ (dt < _computeValue now t →
         timers s2 !! id = Some l
         ∧ intervals s2 !! nextHandle s = Some (id, l)
         ∧ out s2 = out s1
                    ++ map (λ fn, Call fn (_computeValue now t - dt)) (listeners t)).
Proof.
  intros H1 H2 Ht Hi Hdt.
  rewrite (start_stopped _ now _ _ _ H1 H2 Hi).
  set (t1 := set_intervalId (Some (nextHandle s)) (set_startTs now t)).
  match goal with |- context [(?st, Ok tt) = (_, Ok tt)] => set (s1 := st) end.
  assert (Hl : heap s1 !! l = Some t1) by apply lookup_insert_eq.
  assert (Hid : timers s1 !! id = Some l) by done.
  assert (Hh : intervals s1 !! nextHandle s = Some (id, l))
    by apply lookup_insert_eq.
  assert (Hv : _computeValue (now + dt) t1 = Z.max 0 (_computeValue now t - dt)).
  { rewrite !computeValue_timer by done. cbn. rewrite Hi. lia. }
  assert (Hv0 : 0 ≤ _computeValue now t)
    by (rewrite computeValue_timer by done; lia).
  exists s1. destruct (Z.le_gt_cases (_computeValue now t) dt) as [Hle|Hgt].
  - rewrite (tick_zero _ (now + dt) now' _ _ _ _ Hh Hid Hl eq_refl Ht)
      by (rewrite Hv; lia).
    eexists. split; [done|]. split; [done|]. split; [|intros; lia].
    intros _. cbn. split_and!; try done; apply lookup_delete_eq.
  - rewrite (tick_notify _ (now + dt) now' _ _ _ _ Hh Hl)
      by (right; rewrite Hv; lia).
    eexists. split; [done|]. split; [done|]. split; [intros; lia|].
    intros _. cbn. split_and!; try done.
    rewrite Hv. by replace (Z.max 0 (_computeValue now t - dt))
      with (_computeValue now t - dt) by lia.
Qed.

Lemma countdown_expiry_witness :
  timers (run [OCreateTimer "b" 3000; OSubscribe "b" 1%nat] init) !! "b"
  = Some 0%nat
  ∧ heap (run [OCreateTimer "b" 3000; OSubscribe "b" 1%nat] init) !! 0%nat
    = Some (mkTimer 0 0 None [1%nat] TIMER (Some 3000))
  ∧ 0 ≤ 3000
  ∧ ∃ s1 s2,
      start "b" 1700000000000
        (run [OCreateTimer "b" 3000; OSubscribe "b" 1%nat] init) = (s1, Ok tt)
      ∧ tick 0%nat (1700000000000 + 3000) 1700000003001 s1 = (s2, Ok tt)
      ∧ timers s2 !! "b" = None.
Proof.
  split; [reflexivity|]. split; [reflexivity|]. split; [lia|].
  destruct (countdown_expiry
              (run [OCreateTimer "b" 3000; OSubscribe "b" 1%nat] init)
              "b" 0%nat (mkTimer 0 0 None [1%nat] TIMER (Some 3000))
              1700000000000 3000 1700000003001
              eq_refl eq_refl eq_refl eq_refl ltac:(lia))
    as (s1 & s2 & Hs & Hk & Hz & _).
  assert (Hle : _computeValue 1700000000000
                  (mkTimer 0 0 None [1%nat] TIMER (Some 3000)) ≤ 3000)
    by (by vm_compute).
  exists s1, s2. split; [done|]. split; [done|]. exact (proj1 (Hz Hle)).
Defined.

(** ** Who is called by a firing *)

Lemma tick_calls (s : State) (h : handle) (id : string) (l : loc) (t : Timer)
    (now now' : Z) :
  intervals s !! h = Some (id, l) → timers s !! id = Some l →
  heap s !! l = Some t → intervalId t = Some h →
  ∃ s' rest,
    tick h now now' s = (s', Ok tt)
    ∧ out s' = out s ++ map (λ fn, Call fn (_computeValue now t)) (listeners t)
                     ++ rest
    ∧ (rest = [] ∨ rest = [ClearInterval h]).
Proof.
  intros Hh H1 H2 H3. destruct (type t) eqn:Ht.
  - destruct (Z.le_gt_cases (_computeValue now t) 0) as [Hv|Hv].
    + rewrite (tick_zero _ _ now' _ _ _ _ Hh H1 H2 H3 Ht Hv).
      assert (Hz : _computeValue now t = 0).
      { rewrite computeValue_timer in * by done. lia. }
      rewrite Hz. eexists _, [ClearInterval h]. split; [done|]. split; [done|by right].
    + rewrite (tick_notify _ now now' _ _ _ _ Hh H2 (or_intror Hv)).
      eexists _, []. rewrite app_nil_r. split; [done|]. split; [done|by left].
  - rewrite (tick_notify _ now now' _ _ _ _ Hh H2 (or_introl Ht)).
    eexists _, []. rewrite app_nil_r. split; [done|]. split; [done|by left].
Qed.

(** X17: a callback that was unsubscribed is not called again.  On a
    running entry, once the closure returned by [subscribe] has been
    invoked, the next firing calls every other listener of the entry
    with the current value and does not call the callback at all. *)
Theorem unsubscribed_not_called (ops : list Op) (h : handle) (id : string)
    (l : loc) (t : Timer) (fn : Listener) (now now' : Z) :
  intervals (run ops init) !! h = Some (id, l) →
  heap (run ops init) !! l = Some t →
  ∃ s1 s2 calls,
    unsubscribe (mkUnsubscribe l fn) (run ops init) = (s1, Ok tt)
    ∧ tick h now now' s1 = (s2, Ok tt)
    ∧ out s2 = out (run ops init) ++ calls
    ∧ (∀ v, Call fn v ∉ calls)
    ∧ ∀ g, g ∈ listeners t → g ≠ fn → Call g (_computeValue now t) ∈ calls.
Proof.
  intros Hh H2. pose proof (wf_reachable ops) as W.
  destruct (wf_intervals _ W _ _ _ Hh) as (H1 & t0 & H2' & H3).
  assert (t0 = t) as -> by congruence.
  assert (Hu : heap (run ops init) !! u_timer (mkUnsubscribe l fn) = Some t) by done.
  rewrite (unsubscribe_live _ _ _ Hu). cbn [u_timer u_fn].
  match goal with |- context [(?st, Ok tt) = (_, Ok tt)] => set (s1 := st) end.
  set (t1 := set_listeners (Set_delete fn (listeners t)) t).
  assert (Hl : heap s1 !! l = Some t1) by apply lookup_insert_eq.
  destruct (tick_calls s1 h id l t1 now now' Hh H1 Hl H3)
    as (s2 & rest & Hk & Ho & Hrest).
  exists s1, s2, (map (λ g, Call g (_computeValue now t)) (Set_delete fn (listeners t))
                  ++ rest).
  split; [done|]. split; [done|]. split; [exact Ho|]. split.
  - intros v. rewrite elem_of_app, list_elem_of_fmap.
    intros [(g & [= <- _] & Hg)|Hin].
    + apply elem_of_Set_delete in Hg. by destruct Hg.
    + destruct Hrest as [-> | ->].
      * by apply not_elem_of_nil in Hin.
      * by apply list_elem_of_singleton in Hin.
  - intros g Hg Hne. rewrite elem_of_app, list_elem_of_fmap. left.
    exists g. split; [done|]. by apply elem_of_Set_delete.
Qed.

Lemma unsubscribed_not_called_witness :
  intervals (run hist_ticking init) !! 0%nat = Some ("b", 0%nat)
  ∧ heap (run hist_ticking init) !! 0%nat
    = Some (mkTimer 1700000000000 0 (Some 0%nat) [1; 2]%nat TIMER (Some 3000))
  ∧ ∃ s1 s2 calls,
      unsubscribe (mkUnsubscribe 0%nat 1%nat) (run hist_ticking init) = (s1, Ok tt)
      ∧ tick 0%nat 1700000002000 1700000002000 s1 = (s2, Ok tt)
      ∧ out s2 = out (run hist_ticking init) ++ calls
      ∧ ∀ v, Call 1%nat v ∉ calls.
Proof.
  split; [reflexivity|]. split; [reflexivity|].
  destruct (unsubscribed_not_called hist_ticking 0%nat "b" 0%nat
              (mkTimer 1700000000000 0 (Some 0%nat) [1; 2]%nat TIMER (Some 3000))
              1%nat 1700000002000 1700000002000 eq_refl eq_refl)
    as (s1 & s2 & calls & Hu & Hk & Ho & Hn & _).
  by exists s1, s2, calls.
Defined.

(** X18: a callback subscribed to a running entry is called by the next
    firing, once, with the same value as every other listener of the
    entry, whether or not it was subscribed before. *)
Theorem subscribed_called_once (ops : list Op) (h : handle) (id : string)
    (l : loc) (t : Timer) (fn : Listener) (now now' : Z) :
  intervals (run ops init) !! h = Some (id, l) →
  heap (run ops init) !! l = Some t →
  ∃ s1 s2 ls rest,
    subscribe id fn (run ops init) = (s1, Ok (mkUnsubscribe l fn))
    ∧ tick h now now' s1 = (s2, Ok tt)
    ∧ out s2 = out (run ops init)
               ++ map (λ g, Call g (_computeValue now t)) ls ++ rest
    ∧ fn ∈ ls ∧ NoDup ls
    ∧ (∀ g, g ∈ ls ↔ g ∈ listeners t ∨ g = fn)
    ∧ (rest = [] ∨ rest = [ClearInterval h]).
Proof.
  intros Hh H2. pose proof (wf_reachable ops) as W.
  destruct (wf_intervals _ W _ _ _ Hh) as (H1 & t0 & H2' & H3).
  assert (t0 = t) as -> by congruence.
  rewrite (subscribe_present _ fn _ _ _ H1 H2).
  match goal with |- context [(?st, Ok _) = (_, Ok _)] => set (s1 := st) end.
  set (t1 := set_listeners (Set_add fn (listeners t)) t).
  assert (Hl : heap s1 !! l = Some t1) by apply lookup_insert_eq.
  destruct (tick_calls s1 h id l t1 now now' Hh H1 Hl H3)
    as (s2 & rest & Hk & Ho & Hrest).
  exists s1, s2, (Set_add fn (listeners t)), rest.
  split; [done|]. split; [done|]. split; [exact Ho|]. split_and!.
  - apply elem_of_Set_add. by right.
  - apply NoDup_Set_add. by eapply wf_nodup.
  - intros g. apply elem_of_Set_add.
  - done.
Qed.

Lemma subscribed_called_once_witness :
  intervals (run hist_ticking init) !! 0%nat = Some ("b", 0%nat)
  ∧ heap (run hist_ticking init) !! 0%nat
    = Some (mkTimer 1700000000000 0 (Some 0%nat) [1; 2]%nat TIMER (Some 3000))
  ∧ ∃ s1 s2 ls rest,
      subscribe "b" 7%nat (run hist_ticking init)
      = (s1, Ok (mkUnsubscribe 0%nat 7%nat))
      ∧ tick 0%nat 1700000002000 1700000002000 s1 = (s2, Ok tt)
      ∧ out s2 = out (run hist_ticking init)
                 ++ map (λ g, Call g 1000) ls ++ rest
      ∧ 7%nat ∈ ls.
Proof.
  split; [reflexivity|]. split; [reflexivity|].
  destruct (subscribed_called_once hist_ticking 0%nat "b" 0%nat
              (mkTimer 1700000000000 0 (Some 0%nat) [1; 2]%nat TIMER (Some 3000))
              7%nat 1700000002000 1700000002000 eq_refl eq_refl)
    as (s1 & s2 & ls & rest & Hs & Hk & Ho & Hin & _).
  by exists s1, s2, ls, rest.
Defined.
